(** * bill-settle-up: the split-payment logic of [PaymentModal.tsx]

    A shallow embedding of the payment dialog of
    [src/components/PaymentModal.tsx] and of its host page, and the
    properties of the reconciliation logic that the specification states.

    Amounts are JavaScript [number]s, that is IEEE-754 binary64 values; they
    are modelled by Rocq's primitive [float], which is the same format with
    the same rounding (to nearest, ties to even).  The component's React
    state is an explicit record, every callback is a function from a state
    to a new state and the list of effects it emits (toasts, the
    [onPaymentComplete] callback, the delivery handlers). *)

From Stdlib Require Import ZArith Floats List String Ascii Bool Lia.
From Stdlib Require Uint63 DecimalString.
Import ListNotations.

Local Open Scope string_scope.
Set Warnings "-inexact-float".

(** ** JavaScript numbers and the built-ins the component uses *)

Module JS.

Definition number : Set := float.

(** [isNaN(x)]. *)
Definition isNaN (x : number) : bool := negb (x =? x)%float.

(** [a > b], [a <= b] and [a === b] on numbers. *)
Definition gt (a b : number) : bool := (b <? a)%float.
Definition le (a b : number) : bool := (a <=? b)%float.
Definition strictEq (a b : number) : bool := (a =? b)%float.

(** The two zeros are told apart by the sign of their inverse. *)
Definition isNegZero (x : number) : bool :=
  ((x =? 0) && (1 / x <? 0))%float.
Definition isPosZero (x : number) : bool :=
  ((x =? 0) && (0 <? 1 / x))%float.

(** [Math.max(a, b)] (ECMA-262, 21.3.2.24): NaN if an argument is NaN;
    the running maximum starts at -Infinity, so it is [a] after the first
    argument; [+0] is larger than [-0]. *)
Definition Math_max (a b : number) : number :=
  if isNaN a || isNaN b then nan
  else if isPosZero b && isNegZero a then b
  else if gt b a then b else a.

(** [Math.min(a, b)] (ECMA-262, 21.3.2.25), symmetrically. *)
Definition Math_min (a b : number) : number :=
  if isNaN a || isNaN b then nan
  else if isNegZero b && isPosZero a then b
  else if (b <? a)%float then b else a.

(** A string is truthy unless it is empty. *)
Definition truthy (s : string) : bool := negb (s =? "").

(** [s || ''] on strings. *)
Definition orEmpty (s : string) : string := if truthy s then s else "".

End JS.

(** ** Data model ([PaymentModal.tsx], lines 13-38) *)

(** [method: 'cash' | 'card' | 'upi' | 'wallet']. *)
Inductive Method : Set := cash | card | upi | wallet.

Definition Method_eqb (a b : Method) : bool :=
  match a, b with
  | cash, cash | card, card | upi, upi | wallet, wallet => true
  | _, _ => false
  end.

(** [interface Payment].  The optional fields are absent ([None]) unless
    [addPayment] spreads them in; [walletType] is never written. *)
Module Payment.
Record t : Set := mk
  { id : string;
    method : Method;
    amount : JS.number;
    details : string;
    cardType : option string;
    lastFour : option string;
    upiId : option string;
    walletType : option string }.
End Payment.

(** [interface WalletBalance]. *)
Record WalletBalance : Set :=
  { total : JS.number;
    rewardPoints : JS.number;
    refundBalance : JS.number }.

(** The props the payment logic reads. *)
Record Props : Set :=
  { totalAmount : JS.number;
    walletBalance : WalletBalance }.

(** The [useState] cells of the component. *)
Record State : Set :=
  { payments : list Payment.t;
    activeMethod : Method;
    amount : string;
    cardType : string;
    lastFour : string;
    upiId : string;
    walletType : string;
    redeemAmount : string;
    selectedDeliveryOptions : list string }.

(** The state on mount. *)
Definition initialState : State :=
  {| payments := [];
     activeMethod := cash;
     amount := "";
     cardType := "";
     lastFour := "";
     upiId := "";
     walletType := "";
     redeemAmount := "";
     selectedDeliveryOptions := [] |}.

(** What a callback does besides updating the state. *)
Record Toast : Set :=
  { title : string;
    description : string;
    destructive : bool }.

Inductive Effect : Set :=
| toast (t : Toast)
| onPaymentComplete (ps : list Payment.t)
| windowOpen (channel : string) (ps : list Payment.t).

(** The errors of the specification are the titles of the destructive
    toasts of the component. *)
Inductive ValidationError : Set :=
| InvalidAmount
| InsufficientWalletBalance
| ExceedsRemainingBalance
| MissingCardType.

Definition errorTitle (e : ValidationError) : string :=
  match e with
  | InvalidAmount => "Invalid Amount"
  | InsufficientWalletBalance => "Insufficient Wallet Balance"
  | ExceedsRemainingBalance => "Amount Exceeds Balance"
  | MissingCardType => "Card Type Required"
  end.

(** The validation error a list of effects reports, if any. *)
Definition reportedError (fx : list Effect) : option ValidationError :=
  match fx with
  | [toast t] =>
      if negb (destructive t) then None
      else if title t =? errorTitle InvalidAmount then Some InvalidAmount
      else if title t =? errorTitle InsufficientWalletBalance
           then Some InsufficientWalletBalance
      else if title t =? errorTitle ExceedsRemainingBalance
           then Some ExceedsRemainingBalance
      else if title t =? errorTitle MissingCardType then Some MissingCardType
      else None
  | _ => None
  end.

(** State updates, one per setter. *)
Definition setPayments (f : list Payment.t -> list Payment.t) (st : State) : State :=
  {| payments := f (payments st);
     activeMethod := activeMethod st;
     amount := amount st;
     cardType := cardType st;
     lastFour := lastFour st;
     upiId := upiId st;
     walletType := walletType st;
     redeemAmount := redeemAmount st;
     selectedDeliveryOptions := selectedDeliveryOptions st |}.

Definition setActiveMethod (m : Method) (st : State) : State :=
  {| payments := payments st;
     activeMethod := m;
     amount := amount st;
     cardType := cardType st;
     lastFour := lastFour st;
     upiId := upiId st;
     walletType := walletType st;
     redeemAmount := redeemAmount st;
     selectedDeliveryOptions := selectedDeliveryOptions st |}.

Definition setAmount (s : string) (st : State) : State :=
  {| payments := payments st;
     activeMethod := activeMethod st;
     amount := s;
     cardType := cardType st;
     lastFour := lastFour st;
     upiId := upiId st;
     walletType := walletType st;
     redeemAmount := redeemAmount st;
     selectedDeliveryOptions := selectedDeliveryOptions st |}.

Definition setCardType (s : string) (st : State) : State :=
  {| payments := payments st;
     activeMethod := activeMethod st;
     amount := amount st;
     cardType := s;
     lastFour := lastFour st;
     upiId := upiId st;
     walletType := walletType st;
     redeemAmount := redeemAmount st;
     selectedDeliveryOptions := selectedDeliveryOptions st |}.

Definition setLastFour (s : string) (st : State) : State :=
  {| payments := payments st;
     activeMethod := activeMethod st;
     amount := amount st;
     cardType := cardType st;
     lastFour := s;
     upiId := upiId st;
     walletType := walletType st;
     redeemAmount := redeemAmount st;
     selectedDeliveryOptions := selectedDeliveryOptions st |}.

Definition setUpiId (s : string) (st : State) : State :=
  {| payments := payments st;
     activeMethod := activeMethod st;
     amount := amount st;
     cardType := cardType st;
     lastFour := lastFour st;
     upiId := s;
     walletType := walletType st;
     redeemAmount := redeemAmount st;
     selectedDeliveryOptions := selectedDeliveryOptions st |}.

Definition setRedeemAmount (s : string) (st : State) : State :=
  {| payments := payments st;
     activeMethod := activeMethod st;
     amount := amount st;
     cardType := cardType st;
     lastFour := lastFour st;
     upiId := upiId st;
     walletType := walletType st;
     redeemAmount := s;
     selectedDeliveryOptions := selectedDeliveryOptions st |}.

Definition setSelectedDeliveryOptions
  (f : list string -> list string) (st : State) : State :=
  {| payments := payments st;
     activeMethod := activeMethod st;
     amount := amount st;
     cardType := cardType st;
     lastFour := lastFour st;
     upiId := upiId st;
     walletType := walletType st;
     redeemAmount := redeemAmount st;
     selectedDeliveryOptions := f (selectedDeliveryOptions st) |}.

(** [resetForm] (lines 112-119). *)
Definition resetForm (st : State) : State :=
  {| payments := payments st;
     activeMethod := activeMethod st;
     amount := "";
     cardType := "";
     lastFour := "";
     upiId := "";
     walletType := "";
     redeemAmount := "";
     selectedDeliveryOptions := selectedDeliveryOptions st |}.

(** [payments.reduce((sum, payment) => sum + payment.amount, 0)] (line 62):
    the amounts are added from left to right, starting from [0]. *)
Definition totalPaid (st : State) : JS.number :=
  fold_left (fun sum payment => (sum + Payment.amount payment)%float)
            (payments st) 0%float.

(** [Math.max(0, totalAmount - totalPaid)] (line 63). *)
Definition remainingBalance (P : Props) (st : State) : JS.number :=
  JS.Math_max 0%float (totalAmount P - totalPaid st)%float.

(** The wallet split of [addPayment] (lines 168-169). *)
Definition pointsUsed (P : Props) (numAmount : JS.number) : JS.number :=
  JS.Math_min numAmount (rewardPoints (walletBalance P)).

Definition refundUsed (P : Props) (numAmount : JS.number) : JS.number :=
  (numAmount - pointsUsed P numAmount)%float.

(** ** The callbacks of the component *)

Section Component.

(** The global [parseFloat] and the conversion of a number to a string
    ([Number.prototype.toString], also applied by template literals) are
    built-ins of the language: the logic is verified for every such pair
    of functions. *)
Variable parseFloat : string -> JS.number.
Variable numToString : JS.number -> string.

Definition invalidAmountToast : Toast :=
  {| title := "Invalid Amount";
     description := "Please enter a valid amount greater than 0";
     destructive := true |}.

Definition insufficientWalletToast (P : Props) : Toast :=
  {| title := "Insufficient Wallet Balance";
     description := "Amount cannot exceed available wallet balance of ₹"
                    ++ numToString (total (walletBalance P));
     destructive := true |}.

Definition exceedsBalanceToast (P : Props) (st : State) : Toast :=
  {| title := "Amount Exceeds Balance";
     description := "Amount cannot exceed remaining balance of ₹"
                    ++ numToString (remainingBalance P st);
     destructive := true |}.

Definition cardTypeRequiredToast : Toast :=
  {| title := "Card Type Required";
     description := "Please select a card type";
     destructive := true |}.

(** [validateWalletAmount] (lines 68-95): the boolean it returns and the
    toast it shows. *)
Definition validateWalletAmount (P : Props) (st : State) (amt : string)
  : bool * list Effect :=
  let numAmount := parseFloat amt in
  if JS.isNaN numAmount || JS.le numAmount 0%float then
    (false, [toast invalidAmountToast])
  else if JS.gt numAmount (total (walletBalance P)) then
    (false, [toast (insufficientWalletToast P)])
  else if JS.gt numAmount (remainingBalance P st) then
    (false, [toast (exceedsBalanceToast P st)])
  else (true, []).

(** [validateAmount] (lines 121-140). *)
Definition validateAmount (P : Props) (st : State) (amt : string)
  : bool * list Effect :=
  let numAmount := parseFloat amt in
  if JS.isNaN numAmount || JS.le numAmount 0%float then
    (false, [toast invalidAmountToast])
  else if JS.gt numAmount (remainingBalance P st) then
    (false, [toast (exceedsBalanceToast P st)])
  else (true, []).

(** The [details] of a card payment (line 162). *)
Definition cardDetails (st : State) : string :=
  cardType st ++ (if JS.truthy (lastFour st) then " ****" ++ lastFour st else "").

(** The [details] of a wallet payment (lines 168-174). *)
Definition walletDetails (P : Props) (numAmount : JS.number) : string :=
  let pointsUsed := pointsUsed P numAmount in
  let refundUsed := refundUsed P numAmount in
  if JS.gt pointsUsed 0%float && JS.gt refundUsed 0%float then
    numToString pointsUsed ++ " pts + ₹" ++ numToString refundUsed ++ " refund used"
  else if JS.gt pointsUsed 0%float then
    numToString pointsUsed ++ " pts used"
  else
    "₹" ++ numToString refundUsed ++ " refund used".

(** The [switch] of [addPayment] (lines 152-176): the [details] string,
    or [None] where the card case returns early. *)
Definition paymentDetails (P : Props) (st : State) (numAmount : JS.number)
  : option string :=
  match activeMethod st with
  | card =>
      if negb (JS.truthy (cardType st)) then None
      else Some (cardDetails st)
  | upi => Some (JS.orEmpty (upiId st))
  | wallet => Some (walletDetails P numAmount)
  | cash => Some ""
  end.

(** The object literal of lines 178-185; [now] is the value of
    [Date.now()]. *)
Definition newPayment (now : JS.number) (st : State)
  (numAmount : JS.number) (details : string) : Payment.t :=
  {| Payment.id := numToString now;
     Payment.method := activeMethod st;
     Payment.amount := numAmount;
     Payment.details := details;
     Payment.cardType :=
       if Method_eqb (activeMethod st) card then Some (cardType st) else None;
     Payment.lastFour :=
       if Method_eqb (activeMethod st) card then Some (lastFour st) else None;
     Payment.upiId :=
       if Method_eqb (activeMethod st) upi then Some (upiId st) else None;
     Payment.walletType := None |}.

Definition paymentAddedToast (numAmount : JS.number) : Toast :=
  {| title := "Payment Added";
     description := "₹" ++ numToString numAmount ++ " payment added successfully";
     destructive := false |}.

(** [isWalletPayment ? redeemAmount : amount] (lines 143-144). *)
Definition paymentAmount (st : State) : string :=
  if Method_eqb (activeMethod st) wallet then redeemAmount st else amount st.

(** [addPayment] (lines 142-194). *)
Definition addPayment (now : JS.number) (P : Props) (st : State)
  : State * list Effect :=
  let isWalletPayment := Method_eqb (activeMethod st) wallet in
  let paymentAmount := paymentAmount st in
  match (if isWalletPayment then validateWalletAmount P st paymentAmount
         else (true, [])) with
  | (false, fx) => (st, fx)
  | (true, _) =>
      match (if negb isWalletPayment then validateAmount P st paymentAmount
             else (true, [])) with
      | (false, fx) => (st, fx)
      | (true, _) =>
          let numAmount := parseFloat paymentAmount in
          match paymentDetails P st numAmount with
          | None => (st, [toast cardTypeRequiredToast])
          | Some details =>
              (resetForm
                 (setPayments
                    (fun prev => (prev ++ [newPayment now st numAmount details])%list) st),
               [toast (paymentAddedToast numAmount)])
          end
      end
  end.

(** [deletePayment] (lines 196-202). *)
Definition deletePayment (id : string) (st : State) : State * list Effect :=
  (setPayments (filter (fun p => negb (Payment.id p =? id))) st,
   [toast {| title := "Payment Removed";
             description := "Payment has been removed from the list";
             destructive := false |}]).

(** The delivery handlers (lines 263-315): a window is opened with the
    rendered payments and a toast is shown. *)
Definition deliver (st : State) (option : string) : list Effect :=
  if option =? "print" then
    [windowOpen "print" (payments st);
     toast {| title := "Invoice Printed";
              description := "Invoice has been sent to printer";
              destructive := false |}]
  else if option =? "whatsapp" then
    [windowOpen "whatsapp" (payments st);
     toast {| title := "WhatsApp Opened";
              description := "Invoice details ready to send via WhatsApp";
              destructive := false |}]
  else if option =? "sms" then
    [windowOpen "sms" (payments st);
     toast {| title := "SMS App Opened";
              description := "Invoice details ready to send via SMS";
              destructive := false |}]
  else [].

Definition paymentIncompleteToast (P : Props) (st : State) : Toast :=
  {| title := "Payment Incomplete";
     description := "₹" ++ numToString (remainingBalance P st)
                    ++ " still remaining to be paid";
     destructive := true |}.

Definition paymentSuccessfulToast (P : Props) : Toast :=
  {| title := "Payment Successful";
     description := "Total amount of ₹" ++ numToString (totalAmount P)
                    ++ " has been paid successfully";
     destructive := false |}.

(** [confirmPayment] (lines 204-237). *)
Definition confirmPayment (P : Props) (st : State) : State * list Effect :=
  if JS.gt (remainingBalance P st) 0%float then
    (st, [toast (paymentIncompleteToast P st)])
  else
    (st,
     (onPaymentComplete (payments st)
        :: flat_map (deliver st) (selectedDeliveryOptions st)
        ++ [toast (paymentSuccessfulToast P)])%list).

(** The quick-fill helpers (lines 97-110 and 239-241). *)
Definition useFullWalletBalance (P : Props) (st : State) : State :=
  setRedeemAmount
    (numToString (JS.Math_min (total (walletBalance P)) (remainingBalance P st))) st.

Definition useOnlyPoints (P : Props) (st : State) : State :=
  setRedeemAmount
    (numToString
       (JS.Math_min (rewardPoints (walletBalance P)) (remainingBalance P st))) st.

Definition useRefundBalance (P : Props) (st : State) : State :=
  setRedeemAmount
    (numToString
       (JS.Math_min (refundBalance (walletBalance P)) (remainingBalance P st))) st.

Definition fillRemainingAmount (P : Props) (st : State) : State :=
  setAmount (numToString (remainingBalance P st)) st.

(** [toggleDeliveryOption] (lines 317-323). *)
Definition toggleDeliveryOption (option : string) (st : State) : State :=
  setSelectedDeliveryOptions
    (fun prev =>
       if existsb (String.eqb option) prev
       then filter (fun o => negb (o =? option)) prev
       else (prev ++ [option])%list) st.

(** *** Sessions: what the user can do with the dialog *)

Inductive Action : Set :=
| SelectMethod (m : Method)
| TypeAmount (s : string)
| TypeCardType (s : string)
| TypeLastFour (s : string)
| TypeUpiId (s : string)
| TypeRedeemAmount (s : string)
| ClickFullWallet
| ClickOnlyPoints
| ClickRefundBalance
| ClickRemaining
| ClickToggleDelivery (option : string)
| ClickAdd (now : JS.number)
| ClickDelete (id : string)
| ClickConfirm.

(** The [disabled] attributes of the buttons. *)
Definition addDisabled (P : Props) (st : State) : bool :=
  JS.strictEq (remainingBalance P st) 0%float || negb (JS.truthy (paymentAmount st)).

Definition confirmDisabled (P : Props) (st : State) : bool :=
  JS.gt (remainingBalance P st) 0%float.

Definition quickFillDisabled (P : Props) (st : State) (balance : JS.number) : bool :=
  JS.strictEq (remainingBalance P st) 0%float || JS.strictEq balance 0%float.

(** A click on a disabled button does nothing. *)
Definition step (P : Props) (a : Action) (st : State) : State * list Effect :=
  match a with
  | SelectMethod m => (setActiveMethod m st, [])
  | TypeAmount s => (setAmount s st, [])
  | TypeCardType s => (setCardType s st, [])
  | TypeLastFour s => (setLastFour s st, [])
  | TypeUpiId s => (setUpiId s st, [])
  | TypeRedeemAmount s => (setRedeemAmount s st, [])
  | ClickFullWallet =>
      if quickFillDisabled P st (total (walletBalance P)) then (st, [])
      else (useFullWalletBalance P st, [])
  | ClickOnlyPoints =>
      if quickFillDisabled P st (rewardPoints (walletBalance P)) then (st, [])
      else (useOnlyPoints P st, [])
  | ClickRefundBalance =>
      if quickFillDisabled P st (refundBalance (walletBalance P)) then (st, [])
      else (useRefundBalance P st, [])
  | ClickRemaining =>
      if JS.strictEq (remainingBalance P st) 0%float then (st, [])
      else (fillRemainingAmount P st, [])
  | ClickToggleDelivery o => (toggleDeliveryOption o st, [])
  | ClickAdd now =>
      if addDisabled P st then (st, []) else addPayment now P st
  | ClickDelete id => deletePayment id st
  | ClickConfirm =>
      if confirmDisabled P st then (st, []) else confirmPayment P st
  end.

(** The state after a sequence of actions and the effects emitted on the
    way, oldest first. *)
Fixpoint run (P : Props) (acts : list Action) (st : State)
  : State * list Effect :=
  match acts with
  | [] => (st, [])
  | a :: rest =>
      let (st1, fx1) := step P a st in
      let (st2, fx2) := run P rest st1 in
      (st2, (fx1 ++ fx2)%list)
  end.

(** The states a session can be in. *)
Definition reachable (P : Props) (st : State) : Prop :=
  exists acts, fst (run P acts initialState) = st.

(** *** The host page (the [Index] component)

    It computes the invoice total, renders the dialog with it and a fixed
    wallet, and records the payments the dialog hands over.  The dialog
    stays mounted, so its state outlives its closing. *)

Record LineItem : Set :=
  { name : string;
    price : JS.number;
    quantity : JS.number }.

Record Invoice : Set :=
  { invoiceId : string;
    items : list LineItem;
    tax : JS.number;
    discount : JS.number }.

Record Page : Set :=
  { isPaymentModalOpen : bool;
    completedPayments : list Payment.t;
    currentInvoice : Invoice;
    modal : State }.

Definition initialPage : Page :=
  {| isPaymentModalOpen := false;
     completedPayments := [];
     currentInvoice :=
       {| invoiceId := "INV-2024-001";
          items := [ {| name := "Premium Coffee Beans"; price := 450%float; quantity := 2%float |};
                     {| name := "Ceramic Mug"; price := 250%float; quantity := 1%float |};
                     {| name := "Coffee Grinder"; price := 1200%float; quantity := 1%float |} ];
          tax := 95%float;
          discount := 50%float |};
     modal := initialState |}.

Definition subtotal (inv : Invoice) : JS.number :=
  fold_left (fun sum item => (sum + price item * quantity item)%float)
            (items inv) 0%float.

Definition invoiceTotal (inv : Invoice) : JS.number :=
  (subtotal inv + tax inv - discount inv)%float.

(** The props the page passes to the dialog. *)
Definition modalProps (pg : Page) : Props :=
  {| totalAmount := invoiceTotal (currentInvoice pg);
     walletBalance :=
       {| total := 350%float; rewardPoints := 150%float;
          refundBalance := 200%float |} |}.

Definition handlePaymentComplete (ps : list Payment.t) (pg : Page) : Page :=
  {| isPaymentModalOpen := false;
     completedPayments := ps;
     currentInvoice := currentInvoice pg;
     modal := modal pg |}.

(** [s.padStart(3, '0')]. *)
Definition padStart3 (s : string) : string :=
  string_of_list_ascii (repeat "0"%char (3 - length s)) ++ s.

(** [n] is the value of [Math.floor(Math.random() * 1000)]. *)
Definition handleNewTransaction (n : JS.number) (pg : Page) : Page :=
  {| isPaymentModalOpen := isPaymentModalOpen pg;
     completedPayments := [];
     currentInvoice :=
       {| invoiceId := "INV-2024-" ++ padStart3 (numToString n);
          items := items (currentInvoice pg);
          tax := tax (currentInvoice pg);
          discount := discount (currentInvoice pg) |};
     modal := modal pg |}.

Definition setIsPaymentModalOpen (b : bool) (pg : Page) : Page :=
  {| isPaymentModalOpen := b;
     completedPayments := completedPayments pg;
     currentInvoice := currentInvoice pg;
     modal := modal pg |}.

Definition setModal (st : State) (pg : Page) : Page :=
  {| isPaymentModalOpen := isPaymentModalOpen pg;
     completedPayments := completedPayments pg;
     currentInvoice := currentInvoice pg;
     modal := st |}.

(** The page reacts to the [onPaymentComplete] calls of the dialog. *)
Fixpoint notify (fx : list Effect) (pg : Page) : Page :=
  match fx with
  | [] => pg
  | onPaymentComplete ps :: rest => notify rest (handlePaymentComplete ps pg)
  | _ :: rest => notify rest pg
  end.

(** What the user can do on the page.  The dialog is operable only while
    it is open, "Process Payment" is disabled once payments are recorded,
    and "New Transaction" is shown only then. *)
Inductive PageAction : Set :=
| ClickProcessPayment
| ClickCancel
| ClickNewTransaction (n : JS.number)
| InModal (a : Action).

Definition pageStep (a : PageAction) (pg : Page) : Page * list Effect :=
  match a with
  | ClickProcessPayment =>
      match completedPayments pg with
      | [] => (setIsPaymentModalOpen true pg, [])
      | _ :: _ => (pg, [])
      end
  | ClickCancel => (setIsPaymentModalOpen false pg, [])
  | ClickNewTransaction n =>
      match completedPayments pg with
      | [] => (pg, [])
      | _ :: _ => (handleNewTransaction n pg, [])
      end
  | InModal a =>
      if isPaymentModalOpen pg then
        let (st, fx) := step (modalProps pg) a (modal pg) in
        (notify fx (setModal st pg), fx)
      else (pg, [])
  end.

Fixpoint pageRun (acts : list PageAction) (pg : Page) : Page * list Effect :=
  match acts with
  | [] => (pg, [])
  | a :: rest =>
      let (pg1, fx1) := pageStep a pg in
      let (pg2, fx2) := pageRun rest pg1 in
      (pg2, (fx1 ++ fx2)%list)
  end.

End Component.

(** ** Executable built-ins

    [parseFloat] and [numToString] follow ECMA-262 on the inputs the
    examples below use: plain decimal literals (optional sign, digits,
    optional fraction, or [Infinity]) of at most 15 significant digits, and
    numbers that print in positional notation.  The theorems do not depend
    on them: they hold for every pair of functions. *)

Module Builtins.

Definition digitOf (c : ascii) : option Z :=
  let n := N_of_ascii c in
  if ((48 <=? n) && (n <=? 57))%N then Some (Z.of_N (n - 48)) else None.

(** The longest prefix of digits: its value after [acc], how many digits
    it has, and the rest of the string. *)
Fixpoint digitsPrefix (s : string) (acc : Z) (count : nat) : Z * nat * string :=
  match s with
  | String c rest =>
      match digitOf c with
      | Some d => digitsPrefix rest (10 * acc + d)%Z (S count)
      | None => (acc, count, s)
      end
  | EmptyString => (acc, count, s)
  end.

Fixpoint skipWhite (s : string) : string :=
  match s with
  | String c rest =>
      if ((N_of_ascii c =? 32) || (N_of_ascii c =? 9) || (N_of_ascii c =? 10)
          || (N_of_ascii c =? 13))%N
      then skipWhite rest else s
  | EmptyString => s
  end.

(** An integer below [2^63] as a number. *)
Definition ofZ (z : Z) : JS.number := of_uint63 (Uint63.of_Z z).

Definition parseFloat (s : string) : JS.number :=
  let s := skipWhite s in
  let '(neg, s) :=
    match s with
    | String "-" r => (true, r)
    | String "+" r => (false, r)
    | _ => (false, s)
    end in
  let v :=
    if prefix "Infinity" s then infinity
    else
      let '(i, ni, s) := digitsPrefix s 0 0 in
      let '(m, nf) :=
        match s with
        | String "." r => let '(m, nf, _) := digitsPrefix r i 0 in (m, nf)
        | _ => (i, O)
        end in
      if (ni + nf =? 0)%nat then nan
      else (ofZ m / ofZ (10 ^ Z.of_nat nf))%float in
  if neg then (- v)%float else v.

Definition showZ (z : Z) : string :=
  DecimalString.NilZero.string_of_int (Z.to_int z).

(** [q / 10^p] written with [p] decimals. *)
Definition showScaled (q : Z) (p : nat) : string :=
  if (p =? 0)%nat then showZ q
  else
    let d := (10 ^ Z.of_nat p)%Z in
    let frac := showZ (q mod d) in
    showZ (q / d) ++ "."
      ++ string_of_list_ascii (repeat "0"%char (p - length frac)) ++ frac.

(** The integer nearest to [m * 2^e * 10^p]. *)
Definition scaled (m : positive) (e : Z) (p : nat) : Z :=
  let n := (Z.pos m * 10 ^ Z.of_nat p)%Z in
  if (0 <=? e)%Z then (n * 2 ^ e)%Z
  else let d := (2 ^ (- e))%Z in ((2 * n + d) / (2 * d))%Z.

(** The fewest decimals that read back as [x], which is positive. *)
Fixpoint shortest (x : JS.number) (m : positive) (e : Z) (p fuel : nat) : string :=
  let q := scaled m e p in
  match fuel with
  | O => showScaled q p
  | S fuel' =>
      if (ofZ q / ofZ (10 ^ Z.of_nat p) =? x)%float then showScaled q p
      else shortest x m e (S p) fuel'
  end.

Definition numToString (x : JS.number) : string :=
  match Prim2SF x with
  | S754_nan => "NaN"
  | S754_infinity s => if s then "-Infinity" else "Infinity"
  | S754_zero _ => "0"
  | S754_finite s m e =>
      (if s then "-" else "") ++ shortest (abs x) m e 0 18
  end.

End Builtins.

(** ** Definitions used by the statements *)

(** The amount is a number greater than zero (rule 1). *)
Definition validNumber (n : JS.number) : bool :=
  negb (JS.isNaN n || JS.le n 0%float).

(** The state after [p] has been appended and the form cleared. *)
Definition admitted (p : Payment.t) (st : State) : State :=
  resetForm (setPayments (fun prev => (prev ++ [p])%list) st).

(** The sum of the amounts of the entries, accumulated in settlement
    order on top of [acc]. *)
Fixpoint sumAmounts (acc : JS.number) (ps : list Payment.t) : JS.number :=
  match ps with
  | [] => acc
  | p :: rest => sumAmounts (acc + Payment.amount p)%float rest
  end.

(** The entries a list of effects hands to [onPaymentComplete], if any. *)
Fixpoint handedOver (fx : list Effect) : option (list Payment.t) :=
  match fx with
  | [] => None
  | onPaymentComplete ps :: _ => Some ps
  | _ :: rest => handedOver rest
  end.

(** All the hand-overs in a list of effects. *)
Fixpoint handOvers (fx : list Effect) : list (list Payment.t) :=
  match fx with
  | [] => []
  | onPaymentComplete ps :: rest => ps :: handOvers rest
  | _ :: rest => handOvers rest
  end.

(** The least exponent of a binary64 mantissa. *)
Definition emin64 : Z := SpecFloat.emin prec emax.

(** ** Sessions with the executable built-ins *)

(** The wallet the host page passes to the dialog. *)
Definition demoWallet : WalletBalance :=
  {| total := 350%float; rewardPoints := 150%float; refundBalance := 200%float |}.

(** The dialog on a bill of [T]. *)
Definition demoProps (T : JS.number) : Props :=
  {| totalAmount := T; walletBalance := demoWallet |}.

(** A session on a bill of [T], from the state on mount. *)
Definition exec (T : JS.number) (acts : list Action) : State * list Effect :=
  run Builtins.parseFloat Builtins.numToString (demoProps T) acts initialState.

(** [addPayment] with the executable built-ins. *)
Definition add (T now : JS.number) (st : State) : State * list Effect :=
  addPayment Builtins.parseFloat Builtins.numToString now (demoProps T) st.

(** A bill of 19.99: 1.17 in cash, then the 18.82 that remain. *)
Definition roundedUp : list Action :=
  [TypeAmount "1.17"; ClickAdd 1700000000000%float; TypeAmount "18.82"].

(** A bill of 1: 0.2, 0.1 and 0.7 in cash, which settles it. *)
Definition threeParts : list Action :=
  [TypeAmount "0.2"; ClickAdd 1700000000000%float;
   TypeAmount "0.1"; ClickAdd 1700000060000%float;
   TypeAmount "0.7"; ClickAdd 1700000120000%float].

(** The second entry is removed and 0.1 is added again. *)
Definition redoSecond : list Action :=
  [ClickDelete "1700000060000"; TypeAmount "0.1"; ClickAdd 1700000180000%float].

(** Two additions of 100 while the clock shows the same millisecond. *)
Definition sameMillisecond : list Action :=
  [TypeAmount "100"; ClickAdd 1700000000000%float;
   TypeAmount "100"; ClickAdd 1700000000000%float].

(** A bill of 300 paid in cash. *)
Definition paidInFull : list Action :=
  [TypeAmount "300"; ClickAdd 1700000000000%float].

(** On the page: the bill of 2395 is paid and confirmed, a new transaction
    is started, and the dialog is opened and confirmed again. *)
Definition confirmedTwice : list PageAction :=
  [ClickProcessPayment;
   InModal (TypeAmount "2395"); InModal (ClickAdd 1700000000000%float);
   InModal ClickConfirm;
   ClickNewTransaction 7%float;
   ClickProcessPayment;
   InModal ClickConfirm].

(** The wallet tab with 300 to redeem (scenario B of the specification). *)
Definition redeem300 : list Action := [SelectMethod wallet; TypeRedeemAmount "300"].

(** The wallet tab with 400 to redeem (scenario C). *)
Definition redeem400 : list Action := [SelectMethod wallet; TypeRedeemAmount "400"].

(** The entry that scenario B adds. *)
Definition redeemed : Payment.t :=
  {| Payment.id := "1700000000000";
     Payment.method := wallet;
     Payment.amount := 300%float;
     Payment.details := "150 pts + ₹150 refund used";
     Payment.cardType := None;
     Payment.lastFour := None;
     Payment.upiId := None;
     Payment.walletType := None |}.

(** ** More of the dialog: quick amounts, change, digit fields *)

(** [const quickAmounts = [100, 500, 2000]] (line 65). *)
Definition quickAmounts : list JS.number := [100%float; 500%float; 2000%float].

(** A quick amount button is disabled when [amt > remainingBalance]
    (line 413). *)
Definition quickAmountDisabled (P : Props) (st : State) (amt : JS.number) : bool :=
  JS.gt amt (remainingBalance P st).

(** Its [onClick]: [setAmount(amt.toString())] (line 412). *)
Definition clickQuickAmount (numToString : JS.number -> string)
  (amt : JS.number) (st : State) : State :=
  setAmount (numToString amt) st.

(** The "Change to return" of the cash tab (line 447):
    [Math.max(0, parseFloat(amount || '0') - remainingBalance)]. *)
Definition changeToReturn (parseFloat : string -> JS.number)
  (P : Props) (st : State) : JS.number :=
  JS.Math_max 0%float
    (parseFloat (if JS.truthy (amount st) then amount st else "0")
     - remainingBalance P st)%float.

(** A decimal digit, the complement of the class [\D]. *)
Definition isDigit (c : ascii) : bool :=
  ((48 <=? N_of_ascii c) && (N_of_ascii c <=? 57))%N.

(** [value.replace(/\D/g, '')] (lines 296 and 477). *)
Fixpoint removeNonDigits (s : string) : string :=
  match s with
  | EmptyString => EmptyString
  | String c rest =>
      if isDigit c then String c (removeNonDigits rest) else removeNonDigits rest
  end.

(** The [onChange] of the last-four field (line 477). *)
Definition changeLastFour (value : string) (st : State) : State :=
  setLastFour (removeNonDigits value) st.

(** The test [addPayment] makes before it adds an entry: a positive
    number, within the wallet total for a wallet payment, within the
    remaining balance, with a card type for a card payment. *)
Definition admissible (parseFloat : string -> JS.number)
  (P : Props) (st : State) : bool :=
  let n := parseFloat (paymentAmount st) in
  validNumber n
  && (if Method_eqb (activeMethod st) wallet
      then negb (JS.gt n (total (walletBalance P))) else true)
  && negb (JS.gt n (remainingBalance P st))
  && (if Method_eqb (activeMethod st) card then JS.truthy (cardType st) else true).

(** The windows a list of effects opens, with the entries they show. *)
Fixpoint windows (fx : list Effect) : list (string * list Payment.t) :=
  match fx with
  | [] => []
  | windowOpen channel ps :: rest => (channel, ps) :: windows rest
  | _ :: rest => windows rest
  end.

(** The delivery options the dialog offers. *)
Definition knownOption (o : string) : bool :=
  (o =? "print") || (o =? "whatsapp") || (o =? "sms").

(** What holds of every entry of a session. *)
Definition entryOk (P : Props) (p : Payment.t) : Prop :=
  validNumber (Payment.amount p) = true
  /\ (Payment.method p = wallet ->
      JS.gt (Payment.amount p) (total (walletBalance P)) = false)
  /\ (Payment.method p = card ->
      exists c, Payment.cardType p = Some c /\ JS.truthy c = true).

(** The pages a session on the host page can reach. *)
Definition pageReachable (parseFloat : string -> JS.number)
  (numToString : JS.number -> string) (pg : Page) : Prop :=
  exists acts, fst (pageRun parseFloat numToString acts initialPage) = pg.

(** What the page keeps true: the bill stays the same, and recorded
    payments are the entries of the closed dialog, with nothing remaining. *)
Definition pageOk (pg : Page) : Prop :=
  totalAmount (modalProps pg) = 2395%float
  /\ (completedPayments pg = []
      \/ (isPaymentModalOpen pg = false
          /\ completedPayments pg = payments (modal pg)
          /\ JS.gt (remainingBalance (modalProps pg) (modal pg)) 0%float = false)).

(** ** The order of binary64 numbers *)

(** The value of a finite binary64 number in units of [2^emin64]. *)
Definition scaled64 (m : positive) (e : Z) : Z :=
  (Z.pos m * 2 ^ (e - emin64))%Z.

(** A bound above every finite value in those units. *)
Definition huge64 : Z := (2 ^ 2098)%Z.

(** The position of a number on the extended integer line. *)
Definition position (x : spec_float) : Z :=
  match x with
  | S754_zero _ => 0%Z
  | S754_nan => 0%Z
  | S754_infinity s => if s then (- huge64)%Z else huge64
  | S754_finite s m e => if s then (- scaled64 m e)%Z else scaled64 m e
  end.

(** The result of rounding keeps the sign and is not zero. *)
Definition signed_nonzero (s : bool) (x : spec_float) : Prop :=
  x = S754_infinity s \/ exists m e, x = S754_finite s m e.

(** ** Further sessions *)

(** The card tab filled in for 100, with a UPI id left in its field. *)
Definition cardForm : list Action :=
  [TypeUpiId "someone@upi"; SelectMethod card; TypeCardType "visa";
   TypeLastFour "1234"; TypeAmount "100"].

(** The card entry that this form adds. *)
Definition cardEntry : Payment.t :=
  {| Payment.id := "1700000000000";
     Payment.method := card;
     Payment.amount := 100%float;
     Payment.details := "visa ****1234";
     Payment.cardType := Some "visa";
     Payment.lastFour := Some "1234";
     Payment.upiId := None;
     Payment.walletType := None |}.

(** The wallet tab on a bill of 500. *)
Definition walletTab : State := fst (exec 500%float [SelectMethod wallet]).

(** The entry that "Use Refund Only" and "Add" give there. *)
Definition refundFillEntry : Payment.t :=
  {| Payment.id := "1700000000000";
     Payment.method := wallet;
     Payment.amount := 200%float;
     Payment.details := "150 pts + ₹50 refund used";
     Payment.cardType := None;
     Payment.lastFour := None;
     Payment.upiId := None;
     Payment.walletType := None |}.

(** A bill of 300 paid in cash, with SMS and print selected. *)
Definition paidWithDelivery : list Action :=
  [ClickToggleDelivery "sms"; ClickToggleDelivery "print";
   TypeAmount "300"; ClickAdd 1700000000000%float].

(** On the page: the bill of 2395 is paid in cash and confirmed. *)
Definition paidAndConfirmed : list PageAction :=
  [ClickProcessPayment;
   InModal (TypeAmount "2395"); InModal (ClickAdd 1700000000000%float);
   InModal ClickConfirm].

(** ** The built-ins on samples *)

Example parseFloat_samples :
  Builtins.parseFloat "1000" = 1000%float
  /\ Builtins.parseFloat "18.82" = 18.82%float
  /\ Builtins.parseFloat " -0.5x" = (-0.5)%float
  /\ JS.isNaN (Builtins.parseFloat "") = true
  /\ JS.isNaN (Builtins.parseFloat "abc") = true.
Proof. repeat split; vm_compute; reflexivity. Qed.

Example numToString_samples :
  Builtins.numToString 150%float = "150"
  /\ Builtins.numToString 18.82%float = "18.82"
  /\ Builtins.numToString (0.1 + 0.2)%float = "0.30000000000000004"
  /\ Builtins.numToString 1700000000000%float = "1700000000000"
  /\ Builtins.numToString (-0.05)%float = "-0.05".
Proof. repeat split; vm_compute; reflexivity. Qed.

(** ** Facts about binary64 comparison and subtraction

    They are derived from the specification of the primitive operations
    ([FloatAxioms]) over [spec_float]. *)

Section FloatFacts.

Lemma SFcompare_swap (x y : spec_float) :
  SFcompare y x = option_map CompOpp (SFcompare x y).
Proof.
  destruct x as [sx|sx| |sx mx ex], y as [sy|sy| |sy my ey];
    try destruct sx; try destruct sy; cbn; try reflexivity.
  - rewrite (Z.compare_antisym ey ex).
    destruct (ey ?= ex)%Z; cbn; try reflexivity.
    now rewrite (Pos.compare_cont_antisym mx my Eq).
  - rewrite (Z.compare_antisym ey ex).
    destruct (ey ?= ex)%Z; cbn; try reflexivity.
    now rewrite (Pos.compare_cont_antisym mx my Eq).
Qed.

Lemma Prim2SF_zero : Prim2SF 0%float = S754_zero false.
Proof. reflexivity. Qed.

Lemma isNaN_spec (x : float) :
  JS.isNaN x = match Prim2SF x with S754_nan => true | _ => false end.
Proof.
  unfold JS.isNaN. rewrite FloatAxioms.eqb_spec. unfold SFeqb.
  destruct (Prim2SF x) as [s|s| |s m e]; try destruct s; cbn;
    try reflexivity;
    now rewrite Z.compare_refl, Pos.compare_cont_refl.
Qed.

(** [a <= b] excludes [b < a]. *)
Lemma leb_not_gt (a b : float) :
  (a <=? b)%float = true -> (b <? a)%float = false.
Proof.
  rewrite FloatAxioms.leb_spec, FloatAxioms.ltb_spec. unfold SFleb, SFltb.
  rewrite (SFcompare_swap (Prim2SF a) (Prim2SF b)).
  now destruct (SFcompare (Prim2SF a) (Prim2SF b)) as [[]|].
Qed.

(** [a < b] excludes [b < a] and [a == b], and gives [a <= b]. *)
Lemma ltb_not_gt (a b : float) :
  (a <? b)%float = true -> (b <? a)%float = false.
Proof.
  rewrite !FloatAxioms.ltb_spec. unfold SFltb.
  rewrite (SFcompare_swap (Prim2SF a) (Prim2SF b)).
  now destruct (SFcompare (Prim2SF a) (Prim2SF b)) as [[]|].
Qed.

Lemma ltb_not_eqb (a b : float) :
  (a <? b)%float = true -> (b =? a)%float = false.
Proof.
  rewrite FloatAxioms.ltb_spec, FloatAxioms.eqb_spec. unfold SFltb, SFeqb.
  rewrite (SFcompare_swap (Prim2SF a) (Prim2SF b)).
  now destruct (SFcompare (Prim2SF a) (Prim2SF b)) as [[]|].
Qed.

Lemma eqb_not_ltb (a b : float) :
  (a =? b)%float = true -> (b <? a)%float = false.
Proof.
  rewrite FloatAxioms.ltb_spec, FloatAxioms.eqb_spec. unfold SFltb, SFeqb.
  rewrite (SFcompare_swap (Prim2SF a) (Prim2SF b)).
  now destruct (SFcompare (Prim2SF a) (Prim2SF b)) as [[]|].
Qed.

Lemma ltb_leb (a b : float) :
  (a <? b)%float = true -> (a <=? b)%float = true.
Proof.
  rewrite FloatAxioms.ltb_spec, FloatAxioms.leb_spec. unfold SFltb, SFleb.
  now destruct (SFcompare (Prim2SF a) (Prim2SF b)) as [[]|].
Qed.

(** Comparable numbers are totally ordered: not [a > b] gives [a <= b]. *)
Lemma not_gt_leb (a b : float) :
  JS.isNaN a = false -> JS.isNaN b = false ->
  (b <? a)%float = false -> (a <=? b)%float = true.
Proof.
  rewrite !isNaN_spec, FloatAxioms.ltb_spec, FloatAxioms.leb_spec. unfold SFltb, SFleb.
  rewrite (SFcompare_swap (Prim2SF a) (Prim2SF b)).
  destruct (Prim2SF a) as [sa|sa| |sa ma ea], (Prim2SF b) as [sb|sb| |sb mb eb];
    try discriminate; intros _ _;
    match goal with
    | |- context [SFcompare ?x ?y] => destruct (SFcompare x y) as [[]|] eqn:E
    end; cbn; try reflexivity; try discriminate;
    try destruct sa; try destruct sb; discriminate.
Qed.

(** A comparison that holds has comparable arguments. *)
Lemma ltb_not_NaN (a b : float) :
  (a <? b)%float = true -> JS.isNaN a = false /\ JS.isNaN b = false.
Proof.
  rewrite !isNaN_spec, FloatAxioms.ltb_spec. unfold SFltb.
  destruct (Prim2SF a) as [sa|sa| |sa ma ea], (Prim2SF b) as [sb|sb| |sb mb eb];
    cbn; try discriminate; auto.
Qed.

Lemma leb_not_NaN (a b : float) :
  (a <=? b)%float = true -> JS.isNaN a = false /\ JS.isNaN b = false.
Proof.
  rewrite !isNaN_spec, FloatAxioms.leb_spec. unfold SFleb.
  destruct (Prim2SF a) as [sa|sa| |sa ma ea], (Prim2SF b) as [sb|sb| |sb mb eb];
    cbn; try discriminate; auto.
Qed.

(** A finite number minus itself is [+0]. *)
Lemma sub_diag (a : float) : is_finite a = true -> (a - a)%float = 0%float.
Proof.
  intros Hfin. apply Prim2SF_inj. rewrite FloatAxioms.sub_spec, Prim2SF_zero.
  revert Hfin. unfold is_finite, is_nan, is_infinity.
  rewrite !FloatAxioms.eqb_spec, FloatAxioms.abs_spec. unfold SF64sub, SFsub.
  destruct (Prim2SF a) as [s|s| |s m e]; cbn.
  - now destruct s.
  - now destruct s.
  - discriminate.
  - intros _. now rewrite Z.sub_diag.
Qed.

End FloatFacts.

(** ** The outcomes of [addPayment] *)

Section Outcomes.

Variable parseFloat : string -> JS.number.
Variable numToString : JS.number -> string.

(** Every call of [addPayment] ends in one of five ways, decided by the
    tests of the validators in their order. *)
Lemma addPayment_inv (now : JS.number) (P : Props) (st : State) :
  let n := parseFloat (paymentAmount st) in
  let result := addPayment parseFloat numToString now P st in
  (validNumber n = false
   /\ result = (st, [toast invalidAmountToast]))
  \/ (validNumber n = true /\ activeMethod st = wallet
      /\ JS.gt n (total (walletBalance P)) = true
      /\ result = (st, [toast (insufficientWalletToast numToString P)]))
  \/ (validNumber n = true
      /\ (activeMethod st = wallet -> JS.gt n (total (walletBalance P)) = false)
      /\ JS.gt n (remainingBalance P st) = true
      /\ result = (st, [toast (exceedsBalanceToast numToString P st)]))
  \/ (validNumber n = true
      /\ (activeMethod st = wallet -> JS.gt n (total (walletBalance P)) = false)
      /\ JS.gt n (remainingBalance P st) = false
      /\ activeMethod st = card /\ JS.truthy (cardType st) = false
      /\ result = (st, [toast cardTypeRequiredToast]))
  \/ (exists details,
         validNumber n = true
         /\ (activeMethod st = wallet -> JS.gt n (total (walletBalance P)) = false)
         /\ JS.gt n (remainingBalance P st) = false
         /\ paymentDetails numToString P st n = Some details
         /\ result =
              (admitted (newPayment numToString now st n details) st,
               [toast (paymentAddedToast numToString n)])).
Proof.
  intros n result. subst result.
  unfold addPayment, validateWalletAmount, validateAmount, validNumber.
  fold n.
  destruct (JS.isNaN n || JS.le n 0%float) eqn:Hv.
  - left. destruct (activeMethod st); cbn; auto.
  - right. unfold paymentDetails.
    destruct (activeMethod st) eqn:Hm; cbn [Method_eqb negb];
      try destruct (JS.gt n (total (walletBalance P))) eqn:Hw;
      try (left; repeat split; auto; fail);
      right;
      destruct (JS.gt n (remainingBalance P st)) eqn:Hr;
      try (left; repeat split; auto; discriminate);
      right;
      try destruct (JS.truthy (cardType st)) eqn:Hc; cbn [negb];
      try (left; repeat split; auto; discriminate);
      right; eexists; repeat split; auto; discriminate.
Qed.

End Outcomes.

(** ** Properties of the reconciliation logic *)

Lemma totalPaid_sumAmounts (st : State) :
  totalPaid st = sumAmounts 0%float (payments st).
Proof.
  unfold totalPaid. generalize 0%float.
  induction (payments st) as [|p ps IH]; intros acc; cbn; [reflexivity|apply IH].
Qed.

Lemma sumAmounts_app (acc : JS.number) (ps qs : list Payment.t) :
  sumAmounts acc (ps ++ qs) = sumAmounts (sumAmounts acc ps) qs.
Proof.
  revert acc. induction ps as [|p ps IH]; intros acc; cbn; [reflexivity|apply IH].
Qed.

(** [Math.max(0, d)] is [d] when [d] is positive, NaN when [d] is, and [+0]
    otherwise. *)
Lemma Math_max_zero (d : JS.number) :
  JS.Math_max 0%float d =
    if JS.isNaN d then nan else if (0 <? d)%float then d else 0%float.
Proof.
  unfold JS.Math_max, JS.gt.
  replace (JS.isNaN 0%float) with false by reflexivity.
  replace (JS.isNegZero 0%float) with false by reflexivity.
  now rewrite andb_false_r.
Qed.

Lemma Math_max_zero_not_negative (d : JS.number) :
  (JS.Math_max 0%float d <? 0)%float = false.
Proof.
  rewrite Math_max_zero.
  destruct (JS.isNaN d); [reflexivity|].
  destruct (0 <? d)%float eqn:Hd; [|reflexivity].
  now apply ltb_not_gt.
Qed.

Lemma validNumber_positive (n : JS.number) :
  validNumber n = true -> JS.isNaN n = false /\ (0 <? n)%float = true.
Proof.
  unfold validNumber, JS.le. intros H.
  apply negb_true_iff, orb_false_iff in H. destruct H as [Hn Hle].
  split; [exact Hn|].
  destruct (0 <? n)%float eqn:Hp; [reflexivity|].
  rewrite (not_gt_leb n 0%float Hn eq_refl Hp) in Hle. discriminate.
Qed.

Lemma app_one_neq {A : Type} (l : list A) (x : A) : l <> (l ++ [x])%list.
Proof.
  intros H. apply (f_equal (@List.length A)) in H.
  rewrite length_app in H. cbn in H. lia.
Qed.

Section Properties.

Variable parseFloat : string -> JS.number.
Variable numToString : JS.number -> string.

Local Abbreviation addPayment := (addPayment parseFloat numToString).
Local Abbreviation run := (run parseFloat numToString).

(** An admission is recognised by the entry it appends. *)
Lemma admitted_inv (now : JS.number) (P : Props) (st : State) (p : Payment.t) :
  payments (fst (addPayment now P st)) = (payments st ++ [p])%list ->
  let n := parseFloat (paymentAmount st) in
  exists details,
    validNumber n = true
    /\ (activeMethod st = wallet -> JS.gt n (total (walletBalance P)) = false)
    /\ JS.gt n (remainingBalance P st) = false
    /\ paymentDetails numToString P st n = Some details
    /\ p = newPayment numToString now st n details
    /\ addPayment now P st =
         (admitted p st, [toast (paymentAddedToast numToString n)]).
Proof.
  intros H n.
  destruct (addPayment_inv parseFloat numToString now P st)
    as [[_ E]|[(_ & _ & _ & E)|[(_ & _ & _ & E)|[(_ & _ & _ & _ & _ & E)|
        (details & Hv & Hw & Hr & Hd & E)]]]];
    rewrite E in H; cbn in H;
    try (exfalso; exact (app_one_neq _ _ H)).
  apply app_inv_head in H. injection H as H. subst p.
  exists details. repeat split; auto.
Qed.

(** C7: whenever [addPayment] reports a validation error (Invalid
    Amount, Insufficient Wallet Balance, Amount Exceeds Balance or Card
    Type Required), the state after the call is the state before it: the
    entries, the form, [totalPaid] and [remainingBalance] are unchanged. *)
Theorem rejected_candidate_leaves_state_C7
  (now : JS.number) (P : Props) (st : State) (e : ValidationError) :
  reportedError (snd (addPayment now P st)) = Some e ->
  fst (addPayment now P st) = st
  /\ payments (fst (addPayment now P st)) = payments st
  /\ totalPaid (fst (addPayment now P st)) = totalPaid st
  /\ remainingBalance P (fst (addPayment now P st)) = remainingBalance P st.
Proof.
  intros H.
  assert (E : fst (addPayment now P st) = st).
  { destruct (addPayment_inv parseFloat numToString now P st)
      as [[_ E]|[(_ & _ & _ & E)|[(_ & _ & _ & E)|[(_ & _ & _ & _ & _ & E)|
          (details & _ & _ & _ & _ & E)]]]];
      rewrite E in *; try reflexivity.
    cbn in H. discriminate. }
  rewrite E. auto.
Qed.

(** C3: the rules are tried in a fixed order and the first one that
    fails is the one reported: an amount that is not a positive number is
    Invalid Amount whatever else holds; then, for a wallet payment, an
    amount above [walletBalance.total] is Insufficient Wallet Balance;
    then an amount above the remaining balance is Amount Exceeds Balance.
    So a wallet amount above both the wallet total and the remaining
    balance is reported as Insufficient Wallet Balance, by [addPayment]
    and by [validateWalletAmount] itself. *)
Theorem validation_order_C3 (now : JS.number) (P : Props) (st : State) :
  let n := parseFloat (paymentAmount st) in
  let err := reportedError (snd (addPayment now P st)) in
  (validNumber n = false -> err = Some InvalidAmount)
  /\ (validNumber n = true -> activeMethod st = wallet ->
      JS.gt n (total (walletBalance P)) = true ->
      err = Some InsufficientWalletBalance)
  /\ (validNumber n = true ->
      (activeMethod st = wallet -> JS.gt n (total (walletBalance P)) = false) ->
      JS.gt n (remainingBalance P st) = true ->
      err = Some ExceedsRemainingBalance)
  /\ (validNumber n = true -> activeMethod st = wallet ->
      JS.gt n (total (walletBalance P)) = true ->
      JS.gt n (remainingBalance P st) = true ->
      err = Some InsufficientWalletBalance
      /\ reportedError
           (snd (validateWalletAmount parseFloat numToString P st (paymentAmount st)))
         = Some InsufficientWalletBalance).
Proof.
  intros n err. subst n err.
  pose proof (addPayment_inv parseFloat numToString now P st) as Inv.
  cbv zeta in Inv.
  set (n := parseFloat (paymentAmount st)) in *.
  assert (Hwallet : validNumber n = true -> activeMethod st = wallet ->
                    JS.gt n (total (walletBalance P)) = true ->
                    reportedError (snd (addPayment now P st))
                    = Some InsufficientWalletBalance).
  { intros Hv Hm Hw.
    destruct Inv as [[Hv' _]|[(_ & _ & _ & E)|[(_ & Hw' & _)|[(_ & Hw' & _)|
                     (d & _ & Hw' & _)]]]];
      [congruence | now rewrite E | rewrite (Hw' Hm) in Hw; discriminate ..]. }
  split; [|split; [|split; [|intros Hv Hm Hw Hr; split]]].
  - intros Hv.
    destruct Inv as [[_ E]|[(Hv' & _)|[(Hv' & _)|[(Hv' & _)|(d & Hv' & _)]]]];
      [now rewrite E | congruence ..].
  - exact Hwallet.
  - intros Hv Hw Hr.
    destruct Inv as [[Hv' _]|[(_ & Hm & Hw' & _)|[(_ & _ & _ & E)|[(_ & _ & Hr' & _)|
                     (d & _ & _ & Hr' & _)]]]];
      [congruence | rewrite (Hw Hm) in Hw'; discriminate | now rewrite E
      | congruence ..].
  - now apply Hwallet.
  - unfold validateWalletAmount. fold n.
    unfold validNumber in Hv. apply negb_true_iff in Hv.
    now rewrite Hv, Hw.
Qed.

(** C1, as amended: an entry is admitted only with an amount greater than
    zero and at most the remaining balance at that moment (the remaining
    balance being a number); validation rejects every amount strictly
    above it.  Nothing is said of the floating-point [totalPaid] after the
    admission. *)
Theorem admitted_amount_within_remaining_C1
  (now : JS.number) (P : Props) (st : State) (p : Payment.t) :
  payments (fst (addPayment now P st)) = (payments st ++ [p])%list ->
  JS.isNaN (remainingBalance P st) = false ->
  (0 <? Payment.amount p)%float = true
  /\ JS.gt (Payment.amount p) (remainingBalance P st) = false
  /\ JS.le (Payment.amount p) (remainingBalance P st) = true.
Proof.
  intros H Hnan.
  destruct (admitted_inv now P st p H) as (details & Hv & _ & Hr & _ & Hp & _).
  subst p. cbn [Payment.amount newPayment].
  destruct (validNumber_positive _ Hv) as [Hn Hpos].
  repeat split; auto.
  unfold JS.le. apply not_gt_leb; auto.
Qed.

(** C2: in every state a session can reach, by whatever sequence of
    additions, removals and other actions, [totalPaid] is the sum of the
    amounts of the entries in the list, and [remainingBalance] is
    max(0, totalAmount - totalPaid): the difference when it is positive,
    zero when it is not; it is never negative. *)
Theorem totals_consistent_C2 (P : Props) (st : State) :
  reachable parseFloat numToString P st ->
  let d := (totalAmount P - sumAmounts 0 (payments st))%float in
  totalPaid st = sumAmounts 0%float (payments st)
  /\ remainingBalance P st = JS.Math_max 0%float d
  /\ ((0 <? d)%float = true -> remainingBalance P st = d)
  /\ ((d <=? 0)%float = true -> remainingBalance P st = 0%float)
  /\ (remainingBalance P st <? 0)%float = false.
Proof.
  intros _ d. unfold remainingBalance. rewrite totalPaid_sumAmounts. fold d.
  repeat split.
  - intros Hd. rewrite Math_max_zero, Hd.
    now destruct (ltb_not_NaN _ _ Hd) as [_ ->].
  - intros Hd. rewrite Math_max_zero.
    destruct (leb_not_NaN _ _ Hd) as [-> _].
    now rewrite (leb_not_gt _ _ Hd).
  - apply Math_max_zero_not_negative.
Qed.

End Properties.

(** C10: the refund balance of the wallet is not read when a payment is
    validated and added: two wallets that differ only in [refundBalance]
    give the same verdict and the same error, the same points and refund
    portions, the same detail string and the same result of [addPayment]. *)
Theorem refund_balance_not_read_C10
  (parseFloat : string -> JS.number) (numToString : JS.number -> string)
  (T tot pts refund1 refund2 : JS.number)
  (now : JS.number) (st : State) (amt : string) (n : JS.number) :
  let P1 := {| totalAmount := T;
               walletBalance := {| total := tot; rewardPoints := pts;
                                   refundBalance := refund1 |} |} in
  let P2 := {| totalAmount := T;
               walletBalance := {| total := tot; rewardPoints := pts;
                                   refundBalance := refund2 |} |} in
  validateWalletAmount parseFloat numToString P1 st amt
    = validateWalletAmount parseFloat numToString P2 st amt
  /\ pointsUsed P1 n = pointsUsed P2 n
  /\ refundUsed P1 n = refundUsed P2 n
  /\ walletDetails numToString P1 n = walletDetails numToString P2 n
  /\ addPayment parseFloat numToString now P1 st
     = addPayment parseFloat numToString now P2 st.
Proof. cbv zeta. repeat split. Qed.

(** ** Confirmation *)

Lemma remainingBalance_cases (P : Props) (st : State) :
  let r := remainingBalance P st in
  JS.isNaN r = true
  \/ (JS.isNaN r = false /\ JS.gt r 0%float = true /\ JS.strictEq r 0%float = false)
  \/ (r = 0%float).
Proof.
  cbv zeta. unfold remainingBalance. rewrite Math_max_zero.
  destruct (JS.isNaN (totalAmount P - totalPaid st)%float) eqn:Hn; [left; reflexivity|].
  destruct (0 <? totalAmount P - totalPaid st)%float eqn:Hd.
  - right; left. unfold JS.gt, JS.strictEq. repeat split; auto.
    now apply ltb_not_eqb.
  - right; right. reflexivity.
Qed.

(** C4, as amended: [confirmPayment] hands the entries over exactly when
    the remaining balance is not above zero, which for a remaining balance
    that is a number means that it is zero; when it is above zero the call
    only shows "Payment Incomplete" with the remaining balance.  It never
    changes the state of the dialog, and it keeps no record of having
    succeeded: a repeated call gives the same result again. *)
Theorem confirm_when_settled_C4
  (numToString : JS.number -> string) (P : Props) (st : State) :
  let r := remainingBalance P st in
  let result := confirmPayment numToString P st in
  (JS.gt r 0%float = true ->
   result = (st, [toast (paymentIncompleteToast numToString P st)])
   /\ handedOver (snd result) = None)
  /\ (JS.gt r 0%float = false -> handedOver (snd result) = Some (payments st))
  /\ (JS.isNaN r = false ->
      (handedOver (snd result) = Some (payments st) <-> JS.strictEq r 0%float = true))
  /\ fst result = st
  /\ confirmPayment numToString P (fst result) = result.
Proof.
  cbv zeta. unfold confirmPayment.
  pose proof (remainingBalance_cases P st) as Hcases. cbv zeta in Hcases.
  destruct (JS.gt (remainingBalance P st) 0%float) eqn:Hg;
    cbn [fst snd handedOver]; rewrite ?Hg.
  - repeat split; auto; try discriminate.
    intros He.
    destruct Hcases as [Hn|[(_ & _ & He')|Hz]]; [congruence|congruence|].
    rewrite Hz in Hg. discriminate.
  - repeat split; auto; try discriminate.
    intros _.
    destruct Hcases as [Hn|[(_ & Hg' & _)|Hz]]; [congruence|congruence|].
    now rewrite Hz.
Qed.

(** ** The wallet split *)

Lemma isPosZero_eq (a : JS.number) : JS.isPosZero a = true -> a = 0%float.
Proof.
  unfold JS.isPosZero. intros H. apply andb_true_iff in H. destruct H as [Hz Hs].
  apply Prim2SF_inj. revert Hz Hs.
  rewrite FloatAxioms.eqb_spec, FloatAxioms.ltb_spec, FloatAxioms.div_spec.
  rewrite Prim2SF_zero.
  destruct (Prim2SF a) as [s|s| |s m e]; try destruct s; cbn; congruence.
Qed.

Lemma isNegZero_eq (a : JS.number) : JS.isNegZero a = true -> a = (-0)%float.
Proof.
  unfold JS.isNegZero. intros H. apply andb_true_iff in H. destruct H as [Hz Hs].
  apply Prim2SF_inj. revert Hz Hs.
  rewrite FloatAxioms.eqb_spec, FloatAxioms.ltb_spec, FloatAxioms.div_spec.
  rewrite Prim2SF_zero.
  replace (Prim2SF (-0)%float) with (S754_zero true) by reflexivity.
  destruct (Prim2SF a) as [s|s| |s m e]; try destruct s; cbn; congruence.
Qed.

Lemma isNaN_eqb_refl (a : JS.number) : JS.isNaN a = false -> (a =? a)%float = true.
Proof. unfold JS.isNaN. now intros H%negb_false_iff. Qed.

(** [Math.min(a, b)] for [a <= b] is [a], except that it is [-0] for
    [a = +0] and [b = -0]. *)
Lemma Math_min_le (a b : JS.number) :
  (a <=? b)%float = true ->
  JS.Math_min a b = a \/ (a = 0%float /\ b = (-0)%float /\ JS.Math_min a b = b).
Proof.
  intros H. unfold JS.Math_min.
  destruct (leb_not_NaN _ _ H) as [-> ->]. cbn [orb].
  destruct (JS.isNegZero b && JS.isPosZero a) eqn:Hz.
  - right. apply andb_true_iff in Hz. destruct Hz as [Hb Ha].
    auto using isPosZero_eq, isNegZero_eq.
  - left. now rewrite (leb_not_gt _ _ H).
Qed.

Lemma Math_min_gt (a b : JS.number) :
  (b <? a)%float = true -> JS.Math_min a b = b.
Proof.
  intros H. unfold JS.Math_min.
  destruct (ltb_not_NaN _ _ H) as [-> ->]. cbn [orb]. rewrite H.
  now destruct (JS.isNegZero b && JS.isPosZero a).
Qed.

(** C5: the wallet split is [pointsUsed = Math.min(amount, rewardPoints)]
    and [refundUsed = amount - pointsUsed].  For every (finite) amount that
    is at most [rewardPoints], [pointsUsed] equals the amount and
    [refundUsed] is zero; for every amount above [rewardPoints], in
    particular up to [rewardPoints + refundBalance], [pointsUsed] is
    [rewardPoints] and [refundUsed] is [amount - rewardPoints]: points are
    used first. *)
Theorem wallet_decomposition_C5 (P : Props) (amount : JS.number) :
  let pts := rewardPoints (walletBalance P) in
  pointsUsed P amount = JS.Math_min amount pts
  /\ refundUsed P amount = (amount - pointsUsed P amount)%float
  /\ (is_finite amount = true -> JS.le amount pts = true ->
      JS.strictEq (pointsUsed P amount) amount = true
      /\ refundUsed P amount = 0%float
      /\ ((0 <? amount)%float = true -> pointsUsed P amount = amount))
  /\ (JS.gt amount pts = true ->
      pointsUsed P amount = pts
      /\ refundUsed P amount = (amount - pts)%float).
Proof.
  cbv zeta. unfold refundUsed, pointsUsed, JS.le, JS.gt, JS.strictEq.
  split; [reflexivity|split; [reflexivity|split]].
  - intros Hfin Hle. split; [|split].
    + destruct (Math_min_le _ _ Hle) as [->|(-> & -> & ->)]; [|reflexivity].
      apply isNaN_eqb_refl. now destruct (leb_not_NaN _ _ Hle).
    + destruct (Math_min_le _ _ Hle) as [->|(-> & -> & ->)]; [|reflexivity].
      now apply sub_diag.
    + intros Hpos.
      destruct (Math_min_le _ _ Hle) as [->|(E & _ & _)]; [reflexivity|].
      rewrite E in Hpos. discriminate.
  - intros Hgt. rewrite (Math_min_gt _ _ Hgt). split; reflexivity.
Qed.

(** ** Rounding does not reach zero

    A non-zero mantissa with an exponent in range is never rounded to
    zero. *)

Lemma digits2_pos_size (m : positive) : digits2_pos m = Pos.size m.
Proof. induction m as [m IH|m IH|]; cbn; now rewrite ?IH. Qed.

Lemma digits2_log2 (m : positive) :
  Z.pos (digits2_pos m) = Z.succ (Z.log2 (Z.pos m)).
Proof.
  destruct m as [m|m|]; cbn; rewrite ?digits2_pos_size; lia.
Qed.

Lemma shr_m_shr_1 (mrs : shr_record) :
  (0 <= shr_m mrs)%Z -> shr_m (shr_1 mrs) = Z.div2 (shr_m mrs).
Proof.
  destruct mrs as [m r s]. destruct m as [|[p|p|]|p]; cbn; try reflexivity; lia.
Qed.

Lemma shr_m_iter (p : positive) (mrs : shr_record) :
  (0 <= shr_m mrs)%Z ->
  shr_m (iter_pos shr_1 p mrs) = Z.shiftr (shr_m mrs) (Z.pos p).
Proof.
  revert mrs. induction p as [p IH|p IH|]; intros mrs Hm; cbn [iter_pos].
  - assert (H1 : (0 <= shr_m (shr_1 mrs))%Z).
    { rewrite shr_m_shr_1 by assumption. rewrite Z.div2_nonneg. assumption. }
    assert (H2 : (0 <= shr_m (iter_pos shr_1 p (shr_1 mrs)))%Z).
    { rewrite IH by assumption. apply Z.shiftr_nonneg. assumption. }
    rewrite IH, IH, shr_m_shr_1 by assumption.
    rewrite Z.div2_spec, !Z.shiftr_shiftr by lia. f_equal. lia.
  - assert (H2 : (0 <= shr_m (iter_pos shr_1 p mrs))%Z).
    { rewrite IH by assumption. apply Z.shiftr_nonneg. assumption. }
    rewrite IH, IH by assumption.
    rewrite !Z.shiftr_shiftr by lia. f_equal. lia.
  - rewrite shr_m_shr_1 by assumption. apply Z.div2_spec.
Qed.

Lemma shr_m_of_loc (m : Z) (l : location) : shr_m (shr_record_of_loc m l) = m.
Proof. destruct l as [|[]]; reflexivity. Qed.

Lemma shr_fexp_pos (m : positive) (e : Z) (l : location) :
  (emin64 <= e)%Z ->
  exists m',
    shr_m (fst (shr_fexp prec emax (Z.pos m) e l)) = Z.pos m'
    /\ (emin64 <= snd (shr_fexp prec emax (Z.pos m) e l))%Z.
Proof.
  intros He. unfold shr_fexp, shr.
  pose proof (digits2_log2 m) as Hd.
  pose proof (Z.log2_nonneg (Z.pos m)) as Hl.
  remember (fexp prec emax (Zdigits2 (Z.pos m) + e) - e)%Z as n eqn:Hn.
  assert (Hle : (n <= Z.log2 (Z.pos m))%Z).
  { subst n. unfold fexp, emin64, SpecFloat.emin, prec, emax in *. cbn [Zdigits2]. lia. }
  destruct n as [|p|p]; cbn [fst snd]; rewrite ?shr_m_of_loc;
    try (exists m; split; [reflexivity|assumption]).
  rewrite shr_m_iter by (rewrite shr_m_of_loc; lia).
  rewrite shr_m_of_loc.
  assert (Hp : (0 < Z.shiftr (Z.pos m) (Z.pos p))%Z).
  { pose proof (Z.shiftr_nonneg (Z.pos m) (Z.pos p)) as Hnn.
    pose proof (Z.shiftr_eq_0_iff (Z.pos m) (Z.pos p)) as H0.
    destruct (Z.eq_dec (Z.shiftr (Z.pos m) (Z.pos p)) 0) as [E|E]; [|lia].
    apply H0 in E. lia. }
  destruct (Z.shiftr (Z.pos m) (Z.pos p)) as [|q|q]; try lia.
  exists q. split; [reflexivity|lia].
Qed.

Lemma round_nearest_even_pos (m : positive) (l : location) :
  exists m', round_nearest_even (Z.pos m) l = Z.pos m'.
Proof.
  destruct l as [|[]]; cbn [round_nearest_even]; try (now exists m).
  - destruct (Z.even (Z.pos m)); [now exists m|]. now exists (m + 1)%positive.
  - now exists (m + 1)%positive.
Qed.

Lemma binary_round_aux_nonzero (sx : bool) (m : positive) (e : Z) (l : location) (s : bool) :
  (emin64 <= e)%Z ->
  binary_round_aux prec emax sx (Z.pos m) e l <> S754_zero s.
Proof.
  intros He. unfold binary_round_aux.
  destruct (shr_fexp_pos m e l He) as (m1 & H1 & He1).
  destruct (shr_fexp prec emax (Z.pos m) e l) as [mrs1 e1]. cbn [fst snd] in *.
  rewrite H1.
  destruct (round_nearest_even_pos m1 (loc_of_shr_record mrs1)) as (m2 & ->).
  destruct (shr_fexp_pos m2 e1 loc_Exact He1) as (m3 & H3 & _).
  destruct (shr_fexp prec emax (Z.pos m2) e1 loc_Exact) as [mrs3 e3]. cbn [fst snd] in *.
  rewrite H3. destruct (e3 <=? emax - prec)%Z; discriminate.
Qed.

Lemma binary_round_nonzero (sx : bool) (m : positive) (e : Z) (s : bool) :
  (emin64 <= e)%Z ->
  binary_round prec emax sx m e <> S754_zero s.
Proof.
  intros He. unfold binary_round, shl_align.
  destruct (fexp prec emax (Z.pos (digits2_pos m) + e) - e)%Z eqn:Hn;
    apply binary_round_aux_nonzero; try assumption.
  unfold fexp, emin64. lia.
Qed.

Lemma valid_exponent (s : bool) (m : positive) (e : Z) :
  valid_binary (S754_finite s m e) = true -> (emin64 <= e)%Z.
Proof.
  unfold valid_binary, bounded, canonical_mantissa, fexp, emin64.
  intros H. apply andb_true_iff in H. destruct H as [H _].
  apply Z.eqb_eq in H. lia.
Qed.

Lemma SFeqb_zero_inv (x : spec_float) :
  SFeqb x (S754_zero false) = true -> exists s, x = S754_zero s.
Proof.
  destruct x as [s|s| |s m e]; try destruct s; cbn; try discriminate; eauto.
Qed.

(** A positive number minus a number that is not positive is not zero:
    the sum of the two magnitudes is rounded, and never to zero. *)
Lemma sub_pos_nonpos (a b : float) :
  (0 <? a)%float = true -> (b <=? 0)%float = true -> (a - b =? 0)%float = false.
Proof.
  intros Ha Hb.
  destruct (a - b =? 0)%float eqn:E; [exfalso|reflexivity].
  revert Ha Hb E.
  rewrite FloatAxioms.ltb_spec, FloatAxioms.leb_spec, FloatAxioms.eqb_spec.
  rewrite FloatAxioms.sub_spec.
  replace (Prim2SF 0%float) with (S754_zero false) by reflexivity.
  pose proof (Prim2SF_valid a) as Va. pose proof (Prim2SF_valid b) as Vb.
  intros Ha Hb E. apply SFeqb_zero_inv in E. destruct E as [s E].
  revert Ha Hb E. unfold SF64sub, SFsub.
  destruct (Prim2SF a) as [sa|sa| |sa ma ea]; try destruct sa; cbn; try discriminate;
    destruct (Prim2SF b) as [sb|sb| |sb mb eb]; try destruct sb; cbn; try discriminate.
  intros _ _.
  apply binary_round_nonzero.
  apply valid_exponent in Va, Vb. lia.
Qed.

Lemma sub_nan_r (a : float) : (a - nan =? 0)%float = false.
Proof.
  rewrite FloatAxioms.eqb_spec, FloatAxioms.sub_spec.
  replace (Prim2SF nan) with S754_nan by reflexivity.
  unfold SF64sub, SFsub. now destruct (Prim2SF a).
Qed.

(** ** The detail string *)

Lemma append_empty_r (s : string) : s ++ "" = s.
Proof. induction s as [|c s IH]; cbn; [reflexivity|now rewrite IH]. Qed.

Lemma orEmpty_id (s : string) : JS.orEmpty s = s.
Proof.
  unfold JS.orEmpty, JS.truthy.
  now destruct (String.eqb_spec s "") as [->|_].
Qed.

(** When nothing is taken from the refund balance, the whole amount, which
    is positive, is taken from the points. *)
Lemma refund_zero_points_positive (P : Props) (n : JS.number) :
  validNumber n = true ->
  JS.strictEq (refundUsed P n) 0%float = true ->
  (0 <? pointsUsed P n)%float = true.
Proof.
  intros Hv He. destruct (validNumber_positive n Hv) as [Hn Hpos].
  unfold refundUsed, pointsUsed, JS.strictEq in *.
  set (pts := rewardPoints (walletBalance P)) in *.
  destruct (JS.isNaN pts) eqn:Hpts.
  - unfold JS.Math_min in He. rewrite Hpts, orb_true_r in He.
    rewrite sub_nan_r in He. discriminate.
  - destruct (pts <? n)%float eqn:Hlt.
    + rewrite (Math_min_gt _ _ Hlt) in *.
      destruct (0 <? pts)%float eqn:Hp; [reflexivity|].
      pose proof (not_gt_leb pts 0%float Hpts eq_refl Hp) as Hle.
      rewrite (sub_pos_nonpos n pts Hpos Hle) in He. discriminate.
    + pose proof (not_gt_leb n pts Hn Hpts Hlt) as Hle.
      destruct (Math_min_le _ _ Hle) as [->|(E & _)]; [exact Hpos|].
      rewrite E in Hpos. discriminate.
Qed.

(** C6: the detail string of an admitted entry is determined by the
    method and the form: nothing for cash; for a card, the card type
    followed by " ****" and the last four digits when they are given, and
    the card type alone otherwise; for UPI, the reference as typed, possibly
    empty; for the wallet, "{pointsUsed} pts + ₹{refundUsed} refund used"
    when both portions are positive, "{pointsUsed} pts used" when the refund
    portion is zero, and "₹{refundUsed} refund used" when the points portion
    is zero. *)
Theorem detail_string_C6
  (parseFloat : string -> JS.number) (numToString : JS.number -> string)
  (now : JS.number) (P : Props) (st : State) (p : Payment.t) :
  payments (fst (addPayment parseFloat numToString now P st))
    = (payments st ++ [p])%list ->
  Payment.method p = activeMethod st
  /\ Payment.amount p = parseFloat (paymentAmount st)
  /\ match activeMethod st with
     | cash => Payment.details p = ""
     | card =>
         (JS.truthy (lastFour st) = true ->
          Payment.details p = cardType st ++ " ****" ++ lastFour st)
         /\ (JS.truthy (lastFour st) = false -> Payment.details p = cardType st)
     | upi => Payment.details p = upiId st
     | wallet =>
         let points := pointsUsed P (Payment.amount p) in
         let refund := refundUsed P (Payment.amount p) in
         ((0 <? points)%float = true -> (0 <? refund)%float = true ->
          Payment.details p =
            numToString points ++ " pts + ₹" ++ numToString refund ++ " refund used")
         /\ (JS.strictEq refund 0%float = true ->
             Payment.details p = numToString points ++ " pts used")
         /\ (JS.strictEq points 0%float = true ->
             Payment.details p = "₹" ++ numToString refund ++ " refund used")
     end.
Proof.
  intros H.
  destruct (admitted_inv parseFloat numToString now P st p H)
    as (details & Hv & _ & _ & Hd & Hp & _).
  subst p. cbn [Payment.details Payment.amount Payment.method newPayment].
  split; [reflexivity|split; [reflexivity|]].
  unfold paymentDetails in Hd.
  destruct (activeMethod st).
  - now injection Hd as <-.
  - destruct (JS.truthy (cardType st)); [|discriminate].
    injection Hd as <-. unfold cardDetails.
    split; intros ->; [reflexivity|apply append_empty_r].
  - injection Hd as <-. apply orEmpty_id.
  - injection Hd as <-. unfold walletDetails, JS.gt. cbv zeta.
    split; [|split].
    + now intros -> ->.
    + intros He.
      rewrite (eqb_not_ltb _ _ He), andb_false_r.
      now rewrite (refund_zero_points_positive P _ Hv He).
    + intros He. now rewrite (eqb_not_ltb _ _ He).
Qed.

(** ** Removing an entry and adding it again *)

Lemma filter_other_ids (id : string) (l : list Payment.t) :
  (forall x, In x l -> Payment.id x <> id) ->
  filter (fun p => negb (Payment.id p =? id)) l = l.
Proof.
  induction l as [|x l IH]; intros H; cbn; [reflexivity|].
  destruct (String.eqb_spec (Payment.id x) id) as [E|_]; cbn.
  - exfalso. apply (H x); [now left|exact E].
  - f_equal. apply IH. intros y Hy. apply H. now right.
Qed.

Lemma deletePayment_last_kept (id : string) (st : State) (l : list Payment.t) (p : Payment.t) :
  payments st = (l ++ [p])%list ->
  Payment.id p = id ->
  payments (fst (deletePayment id st))
    = filter (fun x => negb (Payment.id x =? id)) l.
Proof.
  intros Hl Hp. cbn. rewrite Hl, filter_app.
  cbn. rewrite Hp, String.eqb_refl. cbn. apply app_nil_r.
Qed.

Lemma deletePayment_last (id : string) (st : State) (l : list Payment.t) (p : Payment.t) :
  payments st = (l ++ [p])%list ->
  Payment.id p = id ->
  (forall x, In x l -> Payment.id x <> id) ->
  payments (fst (deletePayment id st)) = l.
Proof.
  intros Hl Hp Hids.
  rewrite (deletePayment_last_kept id st l p Hl Hp).
  apply filter_other_ids. exact Hids.
Qed.

(** C8, as amended.  [st] is any state whose entries are [l] followed by
    the entry [p] admitted last; [st1] is the state in which an entry is
    added again: the state after [deletePayment] of [p]'s id, with the form
    filled in; [q] is the entry then admitted, of the same amount as [p].
    The removal drops [p] and every entry of [l] that bears [p]'s id, and
    [q] is appended to the entries kept.  When no entry of [l] bears [p]'s
    id, the entries are [l] followed by [q], and [totalPaid] and the
    remaining balance are those of [st] exactly. *)
Theorem remove_last_then_readd_C8
  (parseFloat : string -> JS.number) (numToString : JS.number -> string)
  (now : JS.number) (P : Props) (st st1 : State)
  (l : list Payment.t) (p q : Payment.t) :
  payments st = (l ++ [p])%list ->
  payments st1 = payments (fst (deletePayment (Payment.id p) st)) ->
  payments (fst (addPayment parseFloat numToString now P st1))
    = (payments st1 ++ [q])%list ->
  Payment.amount q = Payment.amount p ->
  let st2 := fst (addPayment parseFloat numToString now P st1) in
  let kept := filter (fun x => negb (Payment.id x =? Payment.id p)) l in
  payments st2 = (kept ++ [q])%list
  /\ totalPaid st2 = (sumAmounts 0 kept + Payment.amount p)%float
  /\ ((forall x, In x l -> Payment.id x <> Payment.id p) ->
      payments st2 = (l ++ [q])%list
      /\ totalPaid st2 = totalPaid st
      /\ remainingBalance P st2 = remainingBalance P st).
Proof.
  intros Hl Hst1 Hadd Hamount st2 kept.
  rewrite (deletePayment_last_kept _ st l p Hl eq_refl) in Hst1. fold kept in Hst1.
  assert (E2 : payments st2 = (kept ++ [q])%list).
  { unfold st2. now rewrite Hadd, Hst1. }
  assert (T2 : totalPaid st2 = (sumAmounts 0 kept + Payment.amount p)%float).
  { rewrite totalPaid_sumAmounts, E2, sumAmounts_app. cbn. now rewrite Hamount. }
  split; [exact E2|]. split; [exact T2|].
  intros Hids.
  assert (K : kept = l) by (apply filter_other_ids; exact Hids).
  assert (E : totalPaid st2 = totalPaid st).
  { rewrite T2, K, (totalPaid_sumAmounts st), Hl, sumAmounts_app. reflexivity. }
  split; [now rewrite E2, K|]. split; [exact E|].
  unfold remainingBalance. now rewrite E.
Qed.

(** ** Where the floating-point sums and the missing confirmed state show *)

(** C1, counterexample: with a total of 19.99 and 1.17 paid, the remaining
    balance is 18.82; adding 18.82 is accepted and [totalPaid] becomes
    19.990000000000002, which exceeds the total. *)
Lemma overpayment_by_rounding_C1 :
  let P := demoProps 19.99%float in
  let st := fst (exec 19.99%float roundedUp) in
  let st' := fst (addPayment Builtins.parseFloat Builtins.numToString
                    1700000060000%float P st) in
  remainingBalance P st = 18.82%float
  /\ map Payment.amount (payments st') = [1.17%float; 18.82%float]
  /\ totalPaid st' = 19.990000000000002%float
  /\ JS.gt (totalPaid st') (totalAmount P) = true.
Proof. vm_compute. repeat split. Qed.

(** C4, counterexample: on a settled bill a second call of
    [confirmPayment] succeeds like the first and hands the same entries
    over again; on the page, the entries of a confirmed bill are handed
    over a second time after "New Transaction". *)
Lemma confirm_twice_C4 :
  let P := demoProps 300%float in
  let st := fst (exec 300%float paidInFull) in
  let first := confirmPayment Builtins.numToString P st in
  let second := confirmPayment Builtins.numToString P (fst first) in
  map Payment.amount (payments st) = [300%float]
  /\ handedOver (snd first) = Some (payments st)
  /\ handedOver (snd second) = Some (payments st)
  /\ map (map Payment.amount)
       (handOvers (snd (pageRun Builtins.parseFloat Builtins.numToString
                          confirmedTwice initialPage)))
     = [[2395%float]; [2395%float]].
Proof. vm_compute. repeat split. Qed.

(** C8, counterexample: a bill of 1 is settled by 0.2, 0.1 and 0.7; after
    the 0.1 is removed and added again the entries are 0.2, 0.7 and 0.1,
    their sum is 0.9999999999999999 and 1.1102230246251565e-16 remains. *)
Lemma readd_changes_remaining_C8 :
  let P := demoProps 1%float in
  let st := fst (exec 1%float threeParts) in
  let st' := fst (exec 1%float (threeParts ++ redoSecond)) in
  map Payment.amount (payments st) = [0.2%float; 0.1%float; 0.7%float]
  /\ remainingBalance P st = 0%float
  /\ map Payment.amount (payments st') = [0.2%float; 0.7%float; 0.1%float]
  /\ remainingBalance P st' = 1.1102230246251565e-16%float
  /\ JS.strictEq (remainingBalance P st') (remainingBalance P st) = false.
Proof. vm_compute. repeat split. Qed.

(** Why the round trip of C8 needs an id that no other entry bears: on a
    bill of 500 two entries of 100 bear the same id and 300 remain;
    removing the last one by its id removes both, and after 100 is added
    again 400 remain. *)
Example readd_after_shared_id :
  let P := demoProps 500%float in
  let st := fst (exec 500%float sameMillisecond) in
  let st1 := fst (exec 500%float
                    (sameMillisecond ++ [ClickDelete "1700000000000"; TypeAmount "100"])) in
  let st2 := fst (add 500%float 1700000060000%float st1) in
  map Payment.amount (payments st) = [100%float; 100%float]
  /\ remainingBalance P st = 300%float
  /\ payments st1 = []
  /\ map Payment.amount (payments st2) = [100%float]
  /\ remainingBalance P st2 = 400%float.
Proof. vm_compute. repeat split. Qed.

(** C9: two entries added while [Date.now()] returns the same value get
    the same id; removing one of them by its id removes both. *)
Theorem duplicate_ids_C9 :
  let st := fst (exec 500%float sameMillisecond) in
  map Payment.id (payments st) = ["1700000000000"; "1700000000000"]
  /\ ~ NoDup (map Payment.id (payments st))
  /\ payments (fst (deletePayment "1700000000000" st)) = [].
Proof.
  cbv zeta.
  assert (E : map Payment.id (payments (fst (exec 500%float sameMillisecond)))
              = ["1700000000000"; "1700000000000"]) by (vm_compute; reflexivity).
  split; [exact E|split].
  - rewrite E. intros H. inversion H as [|x l Hin _]. apply Hin. now left.
  - vm_compute. reflexivity.
Qed.

(** ** The scenarios of the specification and instances of the theorems *)

(** Scenario A: the bill of 2395 is paid with 1000 in cash and the
    remaining 1395 by card, and confirmed. *)
Example scenario_A :
  let session :=
    [ClickProcessPayment;
     InModal (TypeAmount "1000"); InModal (ClickAdd 1700000000000%float);
     InModal (SelectMethod card); InModal (TypeCardType "visa");
     InModal (TypeLastFour "1234"); InModal ClickRemaining;
     InModal (ClickAdd 1700000060000%float)] in
  let pg := fst (pageRun Builtins.parseFloat Builtins.numToString session initialPage) in
  let pg' := fst (pageRun Builtins.parseFloat Builtins.numToString
                    (session ++ [InModal ClickConfirm]) initialPage) in
  totalAmount (modalProps pg) = 2395%float
  /\ remainingBalance (modalProps pg) (modal pg) = 0%float
  /\ map Payment.details (payments (modal pg)) = [""; "visa ****1234"]
  /\ map Payment.amount (completedPayments pg') = [1000%float; 1395%float]
  /\ isPaymentModalOpen pg' = false.
Proof. vm_compute. repeat split. Qed.

(** Scenario D: a bill of 300 is settled in cash; once the entry is
    removed 300 remains and confirming is refused. *)
Example scenario_D :
  let P := demoProps 300%float in
  let st := fst (exec 300%float paidInFull) in
  let st' := fst (exec 300%float (paidInFull ++ [ClickDelete "1700000000000"])) in
  remainingBalance P st = 0%float
  /\ remainingBalance P st' = 300%float
  /\ handedOver (snd (confirmPayment Builtins.numToString P st')) = None.
Proof. vm_compute. repeat split. Qed.

(** C7 on scenario C: redeeming 400 from a wallet of 350 is refused with
    Insufficient Wallet Balance and 500 still remains. *)
Lemma rejected_candidate_leaves_state_C7_witness :
  let P := demoProps 500%float in
  let st := fst (exec 500%float redeem400) in
  reportedError (snd (add 500%float 1700000000000%float st))
    = Some InsufficientWalletBalance
  /\ fst (add 500%float 1700000000000%float st) = st
  /\ remainingBalance P (fst (add 500%float 1700000000000%float st)) = 500%float.
Proof.
  cbv zeta.
  assert (H : reportedError
                (snd (add 500%float 1700000000000%float (fst (exec 500%float redeem400))))
              = Some InsufficientWalletBalance) by (vm_compute; reflexivity).
  destruct (rejected_candidate_leaves_state_C7
              Builtins.parseFloat Builtins.numToString 1700000000000%float
              (demoProps 500%float) (fst (exec 500%float redeem400)) _ H)
    as (E1 & _ & _ & E4).
  split; [exact H|]. split; [exact E1|].
  unfold add. rewrite E4. vm_compute. reflexivity.
Defined.

(** C1 on scenario B: the 300 redeemed are positive and within the 500
    that remain. *)
Lemma admitted_amount_within_remaining_C1_witness :
  let P := demoProps 500%float in
  let st := fst (exec 500%float redeem300) in
  payments (fst (add 500%float 1700000000000%float st)) = (payments st ++ [redeemed])%list
  /\ (0 <? Payment.amount redeemed)%float = true
  /\ JS.le (Payment.amount redeemed) (remainingBalance P st) = true.
Proof.
  cbv zeta.
  assert (H : payments (fst (add 500%float 1700000000000%float
                               (fst (exec 500%float redeem300))))
              = (payments (fst (exec 500%float redeem300)) ++ [redeemed])%list)
    by (vm_compute; reflexivity).
  destruct (admitted_amount_within_remaining_C1
              Builtins.parseFloat Builtins.numToString 1700000000000%float
              (demoProps 500%float) (fst (exec 500%float redeem300)) redeemed H)
    as (E1 & _ & E3); [vm_compute; reflexivity|].
  split; [exact H|]. split; [exact E1|exact E3].
Defined.

(** C6 on scenario B: 300 from a wallet with 150 points is described as
    "150 pts + ₹150 refund used". *)
Lemma detail_string_C6_witness :
  let P := demoProps 500%float in
  let st := fst (exec 500%float redeem300) in
  payments (fst (add 500%float 1700000000000%float st)) = (payments st ++ [redeemed])%list
  /\ Payment.details redeemed
     = Builtins.numToString (pointsUsed P 300%float) ++ " pts + ₹"
       ++ Builtins.numToString (refundUsed P 300%float) ++ " refund used"
  /\ Payment.details redeemed = "150 pts + ₹150 refund used".
Proof.
  cbv zeta.
  assert (H : payments (fst (add 500%float 1700000000000%float
                               (fst (exec 500%float redeem300))))
              = (payments (fst (exec 500%float redeem300)) ++ [redeemed])%list)
    by (vm_compute; reflexivity).
  destruct (detail_string_C6
              Builtins.parseFloat Builtins.numToString 1700000000000%float
              (demoProps 500%float) (fst (exec 500%float redeem300)) redeemed H)
    as (_ & _ & D).
  replace (activeMethod (fst (exec 500%float redeem300))) with wallet in D
    by (vm_compute; reflexivity).
  destruct D as (Dboth & _ & _).
  split; [exact H|]. split; [|reflexivity].
  apply Dboth; vm_compute; reflexivity.
Defined.

(** C8 on the bill of 1 settled by 0.2, 0.1 and 0.7: the last entry is
    removed and 0.7 is added again; nothing remains, as before. *)
Lemma remove_last_then_readd_C8_witness :
  let P := demoProps 1%float in
  let st := fst (exec 1%float threeParts) in
  let st1 := fst (exec 1%float
                    (threeParts ++ [ClickDelete "1700000120000"; TypeAmount "0.7"])) in
  map Payment.amount (payments st1) = [0.2%float; 0.1%float]
  /\ map Payment.amount (payments (fst (add 1%float 1700000180000%float st1)))
     = [0.2%float; 0.1%float; 0.7%float]
  /\ remainingBalance P (fst (add 1%float 1700000180000%float st1))
     = remainingBalance P st.
Proof.
  cbv zeta.
  set (st := fst (exec 1%float threeParts)).
  set (st1 := fst (exec 1%float
                     (threeParts ++ [ClickDelete "1700000120000"; TypeAmount "0.7"]))).
  split; [vm_compute; reflexivity|]. split; [vm_compute; reflexivity|].
  refine (proj2 (proj2 (proj2 (proj2 (remove_last_then_readd_C8
                   Builtins.parseFloat Builtins.numToString 1700000180000%float
                   (demoProps 1%float) st st1
                   (firstn 2 (payments st))
                   (nth 2 (payments st) redeemed)
                   (nth 2 (payments (fst (add 1%float 1700000180000%float st1))) redeemed)
                   _ _ _ _)) _))).
  - vm_compute. reflexivity.
  - vm_compute. reflexivity.
  - vm_compute. reflexivity.
  - vm_compute. reflexivity.
  - intros x Hx. vm_compute in Hx.
    destruct Hx as [<-|[<-|[]]]; vm_compute; discriminate.
Defined.

(** C2 on the bill of 1 settled by 0.2, 0.1 and 0.7: the difference is
    not positive and nothing remains. *)
Lemma totals_consistent_C2_witness :
  let P := demoProps 1%float in
  let st := fst (exec 1%float threeParts) in
  map Payment.amount (payments st) = [0.2%float; 0.1%float; 0.7%float]
  /\ totalPaid st = sumAmounts 0%float (payments st)
  /\ remainingBalance P st = 0%float.
Proof.
  cbv zeta. split; [vm_compute; reflexivity|].
  assert (R : reachable Builtins.parseFloat Builtins.numToString
                (demoProps 1%float) (fst (exec 1%float threeParts)))
    by (exists threeParts; reflexivity).
  destruct (totals_consistent_C2 Builtins.parseFloat Builtins.numToString
              (demoProps 1%float) (fst (exec 1%float threeParts)) R)
    as (E & _ & _ & Hzero & _).
  split; [exact E|]. apply Hzero. vm_compute. reflexivity.
Defined.

(** C3 on a bill of 500 and a wallet of 350: redeeming 600 exceeds both
    and is reported as Insufficient Wallet Balance. *)
Lemma validation_order_C3_witness :
  let st := fst (exec 500%float [SelectMethod wallet; TypeRedeemAmount "600"]) in
  reportedError (snd (add 500%float 1700000000000%float st))
    = Some InsufficientWalletBalance.
Proof.
  cbv zeta.
  destruct (validation_order_C3 Builtins.parseFloat Builtins.numToString
              1700000000000%float (demoProps 500%float)
              (fst (exec 500%float [SelectMethod wallet; TypeRedeemAmount "600"])))
    as (_ & _ & _ & Hboth).
  refine (proj1 (Hboth _ _ _ _)); vm_compute; reflexivity.
Defined.

(** C4 on scenario D: with 300 remaining the confirmation is refused; on
    the settled bill the entries are handed over. *)
Lemma confirm_when_settled_C4_witness :
  let P := demoProps 300%float in
  let st := fst (exec 300%float paidInFull) in
  handedOver (snd (confirmPayment Builtins.numToString P initialState)) = None
  /\ handedOver (snd (confirmPayment Builtins.numToString P st)) = Some (payments st).
Proof.
  cbv zeta. split.
  - destruct (confirm_when_settled_C4 Builtins.numToString
                (demoProps 300%float) initialState) as (Hpos & _).
    refine (proj2 (Hpos _)). vm_compute. reflexivity.
  - destruct (confirm_when_settled_C4 Builtins.numToString
                (demoProps 300%float) (fst (exec 300%float paidInFull)))
      as (_ & _ & Hiff & _).
    apply Hiff; vm_compute; reflexivity.
Defined.

(** C5 on the wallet with 150 points: 100 is taken from the points alone,
    300 takes the 150 points and 150 of the refund balance. *)
Lemma wallet_decomposition_C5_witness :
  let P := demoProps 500%float in
  pointsUsed P 100%float = 100%float
  /\ refundUsed P 100%float = 0%float
  /\ pointsUsed P 300%float = 150%float
  /\ refundUsed P 300%float = (300 - 150)%float.
Proof.
  cbv zeta.
  destruct (wallet_decomposition_C5 (demoProps 500%float) 100%float)
    as (_ & _ & Hle & _).
  destruct (wallet_decomposition_C5 (demoProps 500%float) 300%float)
    as (_ & _ & _ & Hgt).
  assert (Hle' := Hle eq_refl eq_refl).
  assert (Hgt' := Hgt eq_refl).
  destruct Hle' as (_ & R & Ppos). destruct Hgt' as (Pp & Rr).
  split; [exact (Ppos eq_refl)|].
  split; [exact R|]. split; [exact Pp|exact Rr].
Defined.

(** * Further properties of the component *)

(** ** Comparison and the signs of sums and differences *)

Section Positions.

Local Open Scope Z_scope.

Lemma emin64_value : emin64 = -1074.
Proof. reflexivity. Qed.

Lemma valid_finite_bounds (s : bool) (m : positive) (e : Z) :
  valid_binary (S754_finite s m e) = true ->
  emin64 <= e <= 971
  /\ Z.pos m < 2 ^ 53
  /\ (emin64 < e -> 2 ^ 52 <= Z.pos m).
Proof.
  unfold valid_binary, bounded, canonical_mantissa, fexp.
  intros H. apply andb_true_iff in H. destruct H as [Hc Hb].
  apply Z.eqb_eq in Hc. apply Z.leb_le in Hb.
  pose proof (digits2_log2 m) as Hd.
  change (SpecFloat.emin prec emax) with emin64 in Hc.
  rewrite emin64_value in *. unfold prec, emax in *.
  split; [lia|]. split.
  - apply Z.log2_lt_pow2; lia.
  - intros He. apply Z.log2_le_pow2; lia.
Qed.

Lemma scaled64_pos (m : positive) (e : Z) : emin64 <= e -> 0 < scaled64 m e.
Proof.
  intros He. unfold scaled64. apply Z.mul_pos_pos; [lia|].
  apply Z.pow_pos_nonneg; lia.
Qed.

Lemma scaled64_lt_huge (s : bool) (m : positive) (e : Z) :
  valid_binary (S754_finite s m e) = true -> scaled64 m e < huge64.
Proof.
  intros H. destruct (valid_finite_bounds s m e H) as ((He1 & He2) & Hm & _).
  unfold scaled64, huge64.
  assert (Hp : 0 < 2 ^ (e - emin64)) by (apply Z.pow_pos_nonneg; lia).
  assert (Hq : 2 ^ (e - emin64) <= 2 ^ 2045).
  { apply Z.pow_le_mono_r; rewrite ?emin64_value in *; lia. }
  replace (2 ^ 2098) with (2 ^ 53 * 2 ^ 2045) by (rewrite <- Z.pow_add_r by lia; reflexivity).
  apply Z.lt_le_trans with (2 ^ 53 * 2 ^ (e - emin64)).
  - apply Z.mul_lt_mono_pos_r; assumption.
  - apply Z.mul_le_mono_nonneg_l; [apply Z.pow_nonneg; lia|assumption].
Qed.

(** Valid mantissas with a smaller exponent denote a smaller value. *)
Lemma scaled64_exponent_lt (s1 s2 : bool) (m1 m2 : positive) (e1 e2 : Z) :
  valid_binary (S754_finite s1 m1 e1) = true ->
  valid_binary (S754_finite s2 m2 e2) = true ->
  e1 < e2 -> scaled64 m1 e1 < scaled64 m2 e2.
Proof.
  intros H1 H2 He.
  destruct (valid_finite_bounds _ _ _ H1) as ((Ha & _) & Hm1 & _).
  destruct (valid_finite_bounds _ _ _ H2) as (_ & _ & Hm2).
  specialize (Hm2 ltac:(lia)).
  unfold scaled64.
  assert (Hp : 0 < 2 ^ (e1 - emin64)) by (apply Z.pow_pos_nonneg; lia).
  replace (e2 - emin64) with ((e2 - e1) + (e1 - emin64)) by lia.
  rewrite Z.pow_add_r by lia.
  assert (Hq : 2 ^ 1 <= 2 ^ (e2 - e1)) by (apply Z.pow_le_mono_r; lia).
  change (2 ^ 1) with 2 in Hq.
  assert (Hr : 2 ^ 53 <= Z.pos m2 * 2 ^ (e2 - e1)).
  { change (2 ^ 53) with (2 ^ 52 * 2). apply Z.mul_le_mono_nonneg; lia. }
  rewrite Z.mul_assoc.
  apply Z.mul_lt_mono_pos_r; lia.
Qed.

Lemma scaled64_compare (s1 s2 : bool) (m1 m2 : positive) (e1 e2 : Z) :
  valid_binary (S754_finite s1 m1 e1) = true ->
  valid_binary (S754_finite s2 m2 e2) = true ->
  (scaled64 m1 e1 ?= scaled64 m2 e2)
  = match e1 ?= e2 with
    | Lt => Lt
    | Gt => Gt
    | Eq => Pos.compare_cont Eq m1 m2
    end.
Proof.
  intros H1 H2.
  destruct (Z.compare_spec e1 e2) as [E|L|G].
  - subst e2. unfold scaled64.
    destruct (valid_finite_bounds _ _ _ H1) as ((Ha & _) & _).
    assert (Hp : 0 < 2 ^ (e1 - emin64)) by (apply Z.pow_pos_nonneg; lia).
    change (Pos.compare_cont Eq m1 m2) with (Z.pos m1 ?= Z.pos m2).
    destruct (Z.compare_spec (Z.pos m1) (Z.pos m2)) as [E|L|G].
    + apply Z.compare_eq_iff. now rewrite E.
    + apply Z.compare_lt_iff. now apply Z.mul_lt_mono_pos_r.
    + apply Z.compare_gt_iff. now apply Z.mul_lt_mono_pos_r.
  - apply Z.compare_lt_iff. eapply scaled64_exponent_lt; eauto.
  - apply Z.compare_gt_iff. eapply scaled64_exponent_lt; eauto.
Qed.

(** Comparison of valid numbers is comparison of their positions. *)
Lemma SFcompare_position (x y : spec_float) :
  valid_binary x = true -> valid_binary y = true ->
  x <> S754_nan -> y <> S754_nan ->
  SFcompare x y = Some (position x ?= position y).
Proof.
  intros Vx Vy Nx Ny.
  destruct x as [sx|sx| |sx mx ex]; try congruence;
    destruct y as [sy|sy| |sy my ey]; try congruence;
    try (pose proof (scaled64_lt_huge _ _ _ Vx) as Bx;
         pose proof (scaled64_pos mx ex
                       (proj1 (proj1 (valid_finite_bounds _ _ _ Vx)))) as Px);
    try (pose proof (scaled64_lt_huge _ _ _ Vy) as By;
         pose proof (scaled64_pos my ey
                       (proj1 (proj1 (valid_finite_bounds _ _ _ Vy)))) as Py);
    assert (Hh : 0 < huge64) by reflexivity;
    cbn [SFcompare position]; f_equal;
    try destruct sx; try destruct sy;
    try (symmetry; first [apply Z.compare_eq_iff | apply Z.compare_lt_iff
                         | apply Z.compare_gt_iff]; lia).
  - rewrite Z.compare_opp, (scaled64_compare _ _ _ _ _ _ Vy Vx).
    rewrite (Z.compare_antisym ey ex).
    destruct (ey ?= ex); cbn; try reflexivity.
    now rewrite (Pos.compare_cont_antisym mx my Eq).
  - now rewrite (scaled64_compare _ _ _ _ _ _ Vx Vy).
Qed.

Lemma iter_xO_value (m d : positive) :
  Z.pos (Pos.iter xO m d) = Z.pos m * 2 ^ Z.pos d.
Proof.
  change (Pos.iter xO m d) with (shift_pos d m).
  rewrite shift_pos_correct, Zpower_pos_nat, Zpower_nat_Z, positive_nat_Z. lia.
Qed.

Lemma shl_align_scaled (m : positive) (e ez : Z) :
  emin64 <= ez <= e ->
  Z.pos (fst (shl_align m e ez)) * 2 ^ (ez - emin64) = scaled64 m e.
Proof.
  intros H. unfold shl_align, scaled64.
  destruct (ez - e) as [|d|d] eqn:Hd; cbn [fst]; try lia.
  - now replace ez with e by lia.
  - rewrite iter_xO_value, <- Z.mul_assoc, <- Z.pow_add_r by lia.
    do 2 f_equal. lia.
Qed.

Lemma binary_round_aux_signed (sx : bool) (m : positive) (e : Z) (l : location) :
  emin64 <= e ->
  signed_nonzero sx (binary_round_aux prec emax sx (Z.pos m) e l).
Proof.
  intros He. unfold binary_round_aux.
  destruct (shr_fexp_pos m e l He) as (m1 & H1 & He1).
  destruct (shr_fexp prec emax (Z.pos m) e l) as [mrs1 e1]. cbn [fst snd] in *.
  rewrite H1.
  destruct (round_nearest_even_pos m1 (loc_of_shr_record mrs1)) as (m2 & ->).
  destruct (shr_fexp_pos m2 e1 loc_Exact He1) as (m3 & H3 & _).
  destruct (shr_fexp prec emax (Z.pos m2) e1 loc_Exact) as [mrs3 e3]. cbn [fst snd] in *.
  rewrite H3. destruct (e3 <=? emax - prec); [right; eauto|left; reflexivity].
Qed.

Lemma binary_round_signed (sx : bool) (m : positive) (e : Z) :
  emin64 <= e -> signed_nonzero sx (binary_round prec emax sx m e).
Proof.
  intros He. unfold binary_round, shl_align.
  destruct (fexp prec emax (Z.pos (digits2_pos m) + e) - e) eqn:Hn;
    apply binary_round_aux_signed; try assumption.
  unfold fexp, emin64. lia.
Qed.

(** The sign of a rounded integer is the sign of the integer. *)
Lemma binary_normalize_sign (z e : Z) :
  emin64 <= e ->
  match z with
  | Z0 => binary_normalize prec emax z e false = S754_zero false
  | Z.pos _ => signed_nonzero false (binary_normalize prec emax z e false)
  | Z.neg _ => signed_nonzero true (binary_normalize prec emax z e false)
  end.
Proof.
  intros He. destruct z; cbn [binary_normalize];
    [reflexivity|now apply binary_round_signed ..].
Qed.

Lemma SFltb_zero_signed (s : bool) (x : spec_float) :
  signed_nonzero s x -> SFltb (S754_zero false) x = negb s.
Proof. intros [->|(m & e & ->)]; now destruct s. Qed.

Lemma SFltb_signed_zero (s : bool) (x : spec_float) :
  signed_nonzero s x -> SFltb x (S754_zero false) = s.
Proof. intros [->|(m & e & ->)]; now destruct s. Qed.

(** The difference of two finite numbers, as an integer at the smaller
    exponent, has the sign of the difference of their positions. *)
Lemma aligned_difference (sx sy : bool) (mx my : positive) (ex ey : Z) :
  valid_binary (S754_finite sx mx ex) = true ->
  valid_binary (S754_finite sy my ey) = true ->
  let ez := Z.min ex ey in
  let z := cond_Zopp sx (Z.pos (fst (shl_align mx ex ez)))
           - cond_Zopp sy (Z.pos (fst (shl_align my ey ez))) in
  emin64 <= ez
  /\ z * 2 ^ (ez - emin64)
     = position (S754_finite sx mx ex) - position (S754_finite sy my ey).
Proof.
  intros Vx Vy ez z.
  destruct (valid_finite_bounds _ _ _ Vx) as ((Hx & _) & _).
  destruct (valid_finite_bounds _ _ _ Vy) as ((Hy & _) & _).
  assert (Hez : emin64 <= ez) by (unfold ez; lia).
  split; [exact Hez|].
  pose proof (shl_align_scaled mx ex ez ltac:(unfold ez; lia)) as Ax.
  pose proof (shl_align_scaled my ey ez ltac:(unfold ez; lia)) as Ay.
  unfold z, position. rewrite Z.mul_sub_distr_r.
  destruct sx, sy; cbn [cond_Zopp]; lia.
Qed.

(** [0 < x - y] exactly when [y < x], for all binary64 numbers. *)
Lemma SFsub_positive (x y : spec_float) :
  valid_binary x = true -> valid_binary y = true ->
  SFltb (S754_zero false) (SFsub prec emax x y) = SFltb y x.
Proof.
  intros Vx Vy.
  destruct x as [sx|sx| |sx mx ex], y as [sy|sy| |sy my ey];
    try reflexivity;
    try (destruct sx; reflexivity);
    try (destruct sy; reflexivity);
    try (destruct sx, sy; reflexivity).
  unfold SFsub, SFltb.
  rewrite (SFcompare_position _ _ Vy Vx) by discriminate.
  destruct (aligned_difference _ _ _ _ _ _ Vx Vy) as [Hez Hz].
  cbv zeta in Hz.
  set (ez := Z.min ex ey) in *.
  set (z := cond_Zopp sx (Z.pos (fst (shl_align mx ex ez)))
            - cond_Zopp sy (Z.pos (fst (shl_align my ey ez)))) in *.
  assert (Hp : 0 < 2 ^ (ez - emin64)) by (apply Z.pow_pos_nonneg; lia).
  pose proof (binary_normalize_sign z ez Hez) as Hs.
  fold (SFltb (S754_zero false) (binary_normalize prec emax z ez false)).
  destruct z as [|p|p].
  - rewrite Hs.
    assert (E : position (S754_finite sy my ey) = position (S754_finite sx mx ex)) by lia.
    rewrite E, Z.compare_refl. reflexivity.
  - rewrite (SFltb_zero_signed _ _ Hs).
    assert (L : position (S754_finite sy my ey) < position (S754_finite sx mx ex)) by nia.
    apply Z.compare_lt_iff in L. now rewrite L.
  - rewrite (SFltb_zero_signed _ _ Hs).
    assert (L : position (S754_finite sx mx ex) < position (S754_finite sy my ey)) by nia.
    apply Z.compare_gt_iff in L. now rewrite L.
Qed.

Lemma sub_positive_iff (a b : float) : (0 <? a - b)%float = (b <? a)%float.
Proof.
  rewrite !FloatAxioms.ltb_spec, FloatAxioms.sub_spec.
  apply SFsub_positive; apply Prim2SF_valid.
Qed.

End Positions.

Lemma isNaN_false_spec (a : float) : JS.isNaN a = false -> Prim2SF a <> S754_nan.
Proof. rewrite isNaN_spec. intros H E. rewrite E in H. discriminate. Qed.

(** On numbers, [<] is the order of the positions. *)
Lemma ltb_position (a b : float) :
  JS.isNaN a = false -> JS.isNaN b = false ->
  (a <? b)%float = (position (Prim2SF a) <? position (Prim2SF b))%Z.
Proof.
  intros Ha Hb. rewrite FloatAxioms.ltb_spec. unfold SFltb, Z.ltb.
  rewrite (SFcompare_position _ _ (Prim2SF_valid a) (Prim2SF_valid b))
    by now apply isNaN_false_spec.
  reflexivity.
Qed.

(** [a <= b] and [b <= c] give [a <= c]: what is not above [b] is not above
    what [b] is not above. *)
Lemma not_gt_trans (a b c : float) :
  JS.isNaN a = false -> JS.isNaN b = false -> JS.isNaN c = false ->
  JS.gt a b = false -> JS.gt b c = false -> JS.gt a c = false.
Proof.
  unfold JS.gt. intros Ha Hb Hc.
  rewrite !ltb_position by assumption.
  rewrite !Z.ltb_ge. lia.
Qed.

Lemma ltb_irrefl (a : float) : (a <? a)%float = false.
Proof.
  destruct (a <? a)%float eqn:E; [|reflexivity].
  now rewrite (ltb_not_gt _ _ E) in E.
Qed.

(** The sum of two positive numbers is positive. *)
Lemma SFadd_positive (x y : spec_float) :
  valid_binary x = true -> valid_binary y = true ->
  SFltb (S754_zero false) x = true -> SFltb (S754_zero false) y = true ->
  SFltb (S754_zero false) (SFadd prec emax x y) = true.
Proof.
  intros Vx Vy.
  destruct x as [sx|sx| |sx mx ex]; try destruct sx; try discriminate;
    destruct y as [sy|sy| |sy my ey]; try destruct sy; try discriminate;
    intros _ _; try reflexivity.
  unfold SFadd. cbn [cond_Zopp Z.add].
  apply valid_exponent in Vx, Vy.
  rewrite (SFltb_zero_signed false); [reflexivity|].
  apply binary_round_signed. lia.
Qed.

Lemma add_positive (a b : float) :
  (0 <? a)%float = true -> (0 <? b)%float = true -> (0 <? a + b)%float = true.
Proof.
  rewrite !FloatAxioms.ltb_spec, FloatAxioms.add_spec.
  apply SFadd_positive; apply Prim2SF_valid.
Qed.

(** Adding a positive number to [+0] gives that number. *)
Lemma add_zero_positive (a : float) : (0 <? a)%float = true -> (0 + a)%float = a.
Proof.
  intros H. apply Prim2SF_inj. revert H.
  rewrite FloatAxioms.ltb_spec, FloatAxioms.add_spec.
  replace (Prim2SF 0%float) with (S754_zero false) by reflexivity.
  destruct (Prim2SF a) as [s|s| |s m e]; try destruct s; cbn; congruence.
Qed.

Lemma setPayments_same (st : State) : setPayments (fun prev => prev) st = st.
Proof. now destruct st. Qed.

Lemma Method_eqb_eq (a b : Method) : Method_eqb a b = true <-> a = b.
Proof. destruct a, b; cbn; split; congruence. Qed.

Section MoreOfAddPayment.

Variable parseFloat : string -> JS.number.
Variable numToString : JS.number -> string.

(** What [admissible] decides. *)
Lemma admissible_spec (now : JS.number) (P : Props) (st : State) :
  let n := parseFloat (paymentAmount st) in
  let result := addPayment parseFloat numToString now P st in
  (admissible parseFloat P st = true ->
   exists p,
     result = (admitted p st, [toast (paymentAddedToast numToString n)])
     /\ Payment.amount p = n
     /\ Payment.id p = numToString now
     /\ Payment.method p = activeMethod st)
  /\ (admissible parseFloat P st = false ->
      fst result = st /\ exists e, reportedError (snd result) = Some e).
Proof.
  cbv zeta. unfold admissible.
  destruct (addPayment_inv parseFloat numToString now P st)
    as [[Hv E]|[(Hv & Hm & Hw & E)|[(Hv & Hw & Hr & E)|[(Hv & Hw & Hr & Hm & Hc & E)|
        (details & Hv & Hw & Hr & Hd & E)]]]];
    rewrite E, Hv; cbn [fst snd andb].
  - split; [discriminate|]. intros _. split; [reflexivity|]. now exists InvalidAmount.
  - rewrite Hm, Hw. cbn. split; [discriminate|]. intros _.
    split; [reflexivity|]. now exists InsufficientWalletBalance.
  - rewrite Hr, andb_false_r. cbn. split; [discriminate|]. intros _.
    split; [reflexivity|]. now exists ExceedsRemainingBalance.
  - rewrite Hm, Hc, andb_false_r. split; [discriminate|]. intros _.
    split; [reflexivity|]. now exists MissingCardType.
  - split.
    + intros _. eexists. split; [reflexivity|]. repeat split.
    + rewrite Hr. unfold paymentDetails in Hd.
      destruct (activeMethod st) eqn:Hm; cbn [Method_eqb negb andb];
        try discriminate.
      * destruct (JS.truthy (cardType st)); discriminate.
      * rewrite (Hw eq_refl). discriminate.
Qed.

(** X1: [addPayment] adds an entry exactly when the amount is a positive
    number, not above the wallet total for a wallet payment, not above the
    remaining balance, and a card type is chosen for a card payment.  It
    then appends one entry with that amount, the id [Date.now().toString()]
    and the active method, and shows "Payment Added"; otherwise it leaves
    the state as it is and shows one of the four error toasts. *)
Theorem addPayment_admits_iff (now : JS.number) (P : Props) (st : State) :
  let n := parseFloat (paymentAmount st) in
  let result := addPayment parseFloat numToString now P st in
  (admissible parseFloat P st = true ->
   exists p,
     result = (admitted p st, [toast (paymentAddedToast numToString n)])
     /\ Payment.amount p = n
     /\ Payment.id p = numToString now
     /\ Payment.method p = activeMethod st)
  /\ (admissible parseFloat P st = false ->
      fst result = st /\ exists e, reportedError (snd result) = Some e).
Proof. exact (admissible_spec now P st). Qed.

(** X2: after an entry has been added the form is empty, the method is
    still selected, and the "Add Payment" button is disabled: a further
    click on it changes nothing. *)
Theorem add_clears_form (now now' : JS.number) (P : Props) (st : State) (p : Payment.t) :
  payments (fst (addPayment parseFloat numToString now P st))
    = (payments st ++ [p])%list ->
  let st' := fst (addPayment parseFloat numToString now P st) in
  amount st' = "" /\ redeemAmount st' = "" /\ cardType st' = ""
  /\ lastFour st' = "" /\ upiId st' = ""
  /\ activeMethod st' = activeMethod st
  /\ selectedDeliveryOptions st' = selectedDeliveryOptions st
  /\ addDisabled P st' = true
  /\ step parseFloat numToString P (ClickAdd now') st' = (st', []).
Proof.
  intros H.
  destruct (admitted_inv parseFloat numToString now P st p H)
    as (details & _ & _ & _ & _ & _ & E).
  rewrite E. cbn [fst].
  assert (D : addDisabled P (admitted p st) = true).
  { unfold addDisabled, paymentAmount. cbn.
    destruct (Method_eqb (activeMethod st) wallet); cbn; apply orb_true_r. }
  repeat split; try reflexivity; try exact D.
  cbn [step]. now rewrite D.
Qed.

(** X3: an entry carries the card type and the last four digits of the
    form only when it is a card payment, and the UPI id only when it is a
    UPI payment; what is left in the other fields of the form is not
    stored. *)
Theorem stored_method_data (now : JS.number) (P : Props) (st : State) (p : Payment.t) :
  payments (fst (addPayment parseFloat numToString now P st))
    = (payments st ++ [p])%list ->
  Payment.walletType p = None
  /\ match Payment.method p with
     | card =>
         Payment.cardType p = Some (cardType st)
         /\ Payment.lastFour p = Some (lastFour st)
         /\ Payment.upiId p = None
         /\ JS.truthy (cardType st) = true
     | upi =>
         Payment.cardType p = None /\ Payment.lastFour p = None
         /\ Payment.upiId p = Some (upiId st)
     | cash | wallet =>
         Payment.cardType p = None /\ Payment.lastFour p = None
         /\ Payment.upiId p = None
     end.
Proof.
  intros H.
  destruct (admitted_inv parseFloat numToString now P st p H)
    as (details & _ & _ & _ & Hd & -> & _).
  unfold paymentDetails in Hd. cbn.
  destruct (activeMethod st); cbn; repeat split.
  now destruct (JS.truthy (cardType st)).
Qed.

End MoreOfAddPayment.

(** ** Removing entries *)

Lemma filter_id_absent (id : string) (l : list Payment.t) :
  Forall (fun x => Payment.id x <> id) (filter (fun p => negb (Payment.id p =? id)) l).
Proof.
  apply Forall_forall. intros x Hx. apply filter_In in Hx. destruct Hx as [_ Hx].
  intros E. rewrite E, String.eqb_refl in Hx. discriminate.
Qed.

(** X4: removing an id that no entry bears leaves the whole state as it
    is (the "Payment Removed" toast is shown all the same). *)
Theorem deletePayment_unknown_id (id : string) (st : State) :
  (forall x, In x (payments st) -> Payment.id x <> id) ->
  deletePayment id st
  = (st, [toast {| title := "Payment Removed";
                   description := "Payment has been removed from the list";
                   destructive := false |}]).
Proof.
  intros H. unfold deletePayment. f_equal.
  destruct st as [ps m a c l u w r d]. unfold setPayments. cbn in *.
  now rewrite (filter_other_ids id ps H).
Qed.

(** X5: [deletePayment] removes every entry that bears the id and no
    other: the entries with another id stay, in their order, and removing
    the same id again changes nothing. *)
Theorem deletePayment_removes_id (id : string) (st : State) :
  let st' := fst (deletePayment id st) in
  (forall x, In x (payments st') <-> In x (payments st) /\ Payment.id x <> id)
  /\ map Payment.id (payments st')
     = filter (fun i => negb (i =? id)) (map Payment.id (payments st))
  /\ fst (deletePayment id st') = st'
  /\ (List.length (payments st') <= List.length (payments st))%nat.
Proof.
  cbv zeta. cbn [fst deletePayment]. repeat split.
  - cbn in H. now apply filter_In in H.
  - cbn in H. apply filter_In in H. destruct H as [_ H].
    intros E. rewrite E, String.eqb_refl in H. discriminate.
  - intros [Hx Hid]. cbn. apply filter_In. split; [exact Hx|].
    now destruct (String.eqb_spec (Payment.id x) id).
  - cbn. induction (payments st) as [|x l IH]; cbn; [reflexivity|].
    destruct (Payment.id x =? id); cbn; now rewrite IH.
  - destruct st as [ps m a c l u w r d]. unfold setPayments. cbn. f_equal.
    apply filter_other_ids. intros x Hx.
    apply filter_In in Hx. destruct Hx as [_ Hx].
    intros E. rewrite E, String.eqb_refl in Hx. discriminate.
  - cbn. apply filter_length_le.
Qed.

Section Sessions.

Variable parseFloat : string -> JS.number.
Variable numToString : JS.number -> string.

(** A property that every action preserves holds throughout a session. *)
Lemma run_invariant (P : Props) (I : State -> Prop) :
  (forall a st, I st -> I (fst (step parseFloat numToString P a st))) ->
  forall acts st, I st -> I (fst (run parseFloat numToString P acts st)).
Proof.
  intros Hstep. induction acts as [|a rest IH]; intros st Hst; cbn; [exact Hst|].
  specialize (Hstep a st Hst).
  destruct (step parseFloat numToString P a st) as [st1 fx1]. cbn in Hstep.
  specialize (IH st1 Hstep).
  destruct (run parseFloat numToString P rest st1) as [st2 fx2]. exact IH.
Qed.

Lemma reachable_invariant (P : Props) (I : State -> Prop) :
  I initialState ->
  (forall a st, I st -> I (fst (step parseFloat numToString P a st))) ->
  forall st, reachable parseFloat numToString P st -> I st.
Proof.
  intros H0 Hstep st [acts <-]. now apply run_invariant.
Qed.

(** An action leaves the entries as they are, removes those with an id, or
    appends one that [addPayment] admits. *)
Lemma step_payments (P : Props) (a : Action) (st : State) :
  let st' := fst (step parseFloat numToString P a st) in
  payments st' = payments st
  \/ (exists id, payments st' = filter (fun p => negb (Payment.id p =? id)) (payments st))
  \/ (exists now p,
         payments st' = (payments st ++ [p])%list
         /\ payments (fst (addPayment parseFloat numToString now P st))
            = (payments st ++ [p])%list).
Proof.
  cbv zeta. destruct a; cbn [step]; try (left; reflexivity).
  - left. now destruct (quickFillDisabled P st (total (walletBalance P))).
  - left. now destruct (quickFillDisabled P st (rewardPoints (walletBalance P))).
  - left. now destruct (quickFillDisabled P st (refundBalance (walletBalance P))).
  - left. now destruct (JS.strictEq (remainingBalance P st) 0%float).
  - destruct (addDisabled P st); [left; reflexivity|].
    destruct (addPayment_inv parseFloat numToString now P st)
      as [[_ E]|[(_ & _ & _ & E)|[(_ & _ & _ & E)|[(_ & _ & _ & _ & _ & E)|
          (details & _ & _ & _ & _ & E)]]]];
      try (rewrite E; left; reflexivity).
    right; right. eexists now, _. rewrite E. split; reflexivity.
  - right; left. exists id. reflexivity.
  - left. unfold confirmPayment.
    destruct (confirmDisabled P st); [reflexivity|].
    now destruct (JS.gt (remainingBalance P st) 0%float).
Qed.

Lemma admitted_entryOk (now : JS.number) (P : Props) (st : State) (p : Payment.t) :
  payments (fst (addPayment parseFloat numToString now P st))
    = (payments st ++ [p])%list ->
  entryOk P p.
Proof.
  intros H.
  destruct (admitted_inv parseFloat numToString now P st p H)
    as (details & Hv & Hw & _ & Hd & -> & _).
  unfold entryOk. cbn. repeat split; auto.
  intros Hm. unfold paymentDetails in Hd. rewrite Hm in *. cbn.
  exists (cardType st). split; [reflexivity|].
  now destruct (JS.truthy (cardType st)).
Qed.

Lemma entries_ok (P : Props) (st : State) :
  reachable parseFloat numToString P st -> Forall (entryOk P) (payments st).
Proof.
  revert st.
  apply (reachable_invariant P (fun st => Forall (entryOk P) (payments st)));
    [constructor|].
  intros a s Hs.
  destruct (step_payments P a s) as [E|[(id & E)|(now & p & E & Hadd)]]; rewrite E.
  - exact Hs.
  - apply Forall_forall. intros x Hx. apply filter_In in Hx.
    rewrite Forall_forall in Hs. now apply Hs.
  - apply Forall_app. split; [exact Hs|].
    constructor; [|constructor]. eapply admitted_entryOk; eauto.
Qed.

(** X7: in every state of a session, each entry's amount is a number
    greater than zero. *)
Theorem entries_have_positive_amounts (P : Props) (st : State) (p : Payment.t) :
  reachable parseFloat numToString P st ->
  In p (payments st) ->
  JS.isNaN (Payment.amount p) = false /\ (0 <? Payment.amount p)%float = true.
Proof.
  intros Hr Hp. pose proof (entries_ok P st Hr) as H.
  rewrite Forall_forall in H. destruct (H p Hp) as (Hv & _).
  now apply validNumber_positive.
Qed.

(** X8: in every state of a session, a wallet entry's amount is not above
    the wallet total, and a card entry carries a card type that is not
    empty. *)
Theorem entries_respect_method_limits (P : Props) (st : State) (p : Payment.t) :
  reachable parseFloat numToString P st ->
  In p (payments st) ->
  (Payment.method p = wallet ->
   JS.gt (Payment.amount p) (total (walletBalance P)) = false)
  /\ (Payment.method p = card ->
      exists c, Payment.cardType p = Some c /\ JS.truthy c = true).
Proof.
  intros Hr Hp. pose proof (entries_ok P st Hr) as H.
  rewrite Forall_forall in H. destruct (H p Hp) as (_ & Hw & Hc). now split.
Qed.

Lemma sumAmounts_positive (ps : list Payment.t) :
  Forall (fun p => (0 <? Payment.amount p)%float = true) ps ->
  forall acc, (0 <? acc)%float = true -> (0 <? sumAmounts acc ps)%float = true.
Proof.
  induction 1 as [|p ps Hp _ IH]; intros acc Hacc; cbn; [exact Hacc|].
  apply IH. now apply add_positive.
Qed.

(** X9: in every state of a session [totalPaid] is [0] when there is no
    entry and a positive number otherwise: it is never NaN and never
    negative. *)
Theorem totalPaid_sign (P : Props) (st : State) :
  reachable parseFloat numToString P st ->
  (payments st = [] -> totalPaid st = 0%float)
  /\ (payments st <> [] -> (0 <? totalPaid st)%float = true)
  /\ JS.isNaN (totalPaid st) = false
  /\ (totalPaid st <? 0)%float = false.
Proof.
  intros Hr. pose proof (entries_ok P st Hr) as H.
  assert (Hpos : Forall (fun p => (0 <? Payment.amount p)%float = true) (payments st)).
  { eapply Forall_impl; [|exact H]. intros p (Hv & _).
    now apply validNumber_positive. }
  rewrite totalPaid_sumAmounts.
  destruct (payments st) as [|p ps].
  - repeat split; congruence.
  - assert (T : (0 <? sumAmounts 0 (p :: ps))%float = true).
    { cbn. inversion Hpos as [|? ? Hp Hps]; subst.
      rewrite (add_zero_positive _ Hp). now apply sumAmounts_positive. }
    split; [discriminate|]. split; [intros _; exact T|].
    split; [now destruct (ltb_not_NaN _ _ T)|now apply ltb_not_gt].
Qed.

End Sessions.

(** ** [Math.min] of two numbers *)

Lemma Math_min_cases (a b : JS.number) :
  JS.isNaN a = false -> JS.isNaN b = false ->
  (JS.Math_min a b = a /\ JS.gt a b = false)
  \/ (JS.Math_min a b = b
      /\ (JS.gt a b = true \/ (a = 0%float /\ b = (-0)%float))).
Proof.
  intros Ha Hb. unfold JS.Math_min, JS.gt. rewrite Ha, Hb. cbn [orb].
  destruct (JS.isNegZero b && JS.isPosZero a) eqn:Hz.
  - right. apply andb_true_iff in Hz. destruct Hz as [Hnz Hpz].
    split; [reflexivity|]. right. auto using isPosZero_eq, isNegZero_eq.
  - destruct (b <? a)%float eqn:Hlt; [right|left]; auto.
Qed.

(** The smaller of two positive numbers is a positive number that neither
    of them is below. *)
Lemma Math_min_positive (a b : JS.number) :
  (0 <? a)%float = true -> (0 <? b)%float = true ->
  let v := JS.Math_min a b in
  validNumber v = true /\ (0 <? v)%float = true
  /\ JS.gt v a = false /\ JS.gt v b = false.
Proof.
  intros Ha Hb.
  destruct (ltb_not_NaN _ _ Ha) as [_ Na]. destruct (ltb_not_NaN _ _ Hb) as [_ Nb].
  assert (Hv : forall v, (0 <? v)%float = true -> validNumber v = true).
  { intros v Hpos. unfold validNumber, JS.le.
    destruct (ltb_not_NaN _ _ Hpos) as [_ ->]. cbn.
    destruct (v <=? 0)%float eqn:E; [|reflexivity].
    now rewrite (leb_not_gt _ _ E) in Hpos. }
  cbv zeta.
  destruct (Math_min_cases a b Na Nb) as [[-> Hab]|[-> [Hab|[E _]]]].
  - unfold JS.gt in *. repeat split; auto using ltb_irrefl.
  - unfold JS.gt in *. repeat split; auto using ltb_irrefl, ltb_not_gt.
  - rewrite E in Ha. discriminate.
Qed.

Section QuickFill.

Variable parseFloat : string -> JS.number.
Variable numToString : JS.number -> string.

(** An amount that passes every test is added. *)
Lemma checked_amount_is_added (now : JS.number) (P : Props) (st : State) :
  let n := parseFloat (paymentAmount st) in
  validNumber n = true ->
  (activeMethod st = wallet -> JS.gt n (total (walletBalance P)) = false) ->
  JS.gt n (remainingBalance P st) = false ->
  (activeMethod st = card -> JS.truthy (cardType st) = true) ->
  exists p,
    payments (fst (addPayment parseFloat numToString now P st))
      = (payments st ++ [p])%list
    /\ Payment.amount p = n
    /\ Payment.method p = activeMethod st
    /\ paymentDetails numToString P st n = Some (Payment.details p).
Proof.
  intros n Hv Hw Hr Hc. subst n.
  destruct (addPayment_inv parseFloat numToString now P st)
    as [[Hv' _]|[(_ & Hm & Hw' & _)|[(_ & _ & Hr' & _)|[(_ & _ & _ & Hm & Hc' & _)|
        (details & _ & _ & _ & Hd & E)]]]].
  - congruence.
  - rewrite (Hw Hm) in Hw'. discriminate.
  - congruence.
  - rewrite (Hc Hm) in Hc'. discriminate.
  - rewrite E. eexists. cbn. repeat split. exact Hd.
Qed.

(** X11: a quick amount button (100, 500 or 2000) that is enabled fills in
    an amount that [addPayment] accepts for cash, UPI, or a card with a
    type chosen, as the amount it shows is read back as the same number. *)
Theorem quick_amount_is_accepted
  (now : JS.number) (P : Props) (st : State) (amt : JS.number) :
  In amt quickAmounts ->
  quickAmountDisabled P st amt = false ->
  activeMethod st <> wallet ->
  (activeMethod st = card -> JS.truthy (cardType st) = true) ->
  parseFloat (numToString amt) = amt ->
  exists p,
    payments (fst (addPayment parseFloat numToString now P
                     (clickQuickAmount numToString amt st)))
      = (payments st ++ [p])%list
    /\ Payment.amount p = amt.
Proof.
  intros Hin Hen Hm Hc Hrt.
  set (st1 := clickQuickAmount numToString amt st).
  assert (Ha : paymentAmount st1 = numToString amt).
  { unfold paymentAmount, st1. cbn. now destruct (activeMethod st). }
  destruct (checked_amount_is_added now P st1) as (p & Hp & Hamt & _).
  - rewrite Ha, Hrt. destruct Hin as [<-|[<-|[<-|[]]]]; reflexivity.
  - intros Hw. now cbn in Hw.
  - rewrite Ha, Hrt. exact Hen.
  - exact Hc.
  - exists p. rewrite Ha, Hrt in Hamt. now split.
Qed.

(** X12: while something remains, the "Remaining" button fills in an
    amount that [addPayment] accepts for cash, UPI, or a card with a type
    chosen: the entry added has exactly the remaining balance as its
    amount. *)
Theorem remaining_fill_is_accepted (now : JS.number) (P : Props) (st : State) :
  JS.gt (remainingBalance P st) 0%float = true ->
  activeMethod st <> wallet ->
  (activeMethod st = card -> JS.truthy (cardType st) = true) ->
  parseFloat (numToString (remainingBalance P st)) = remainingBalance P st ->
  step parseFloat numToString P ClickRemaining st = (fillRemainingAmount numToString P st, [])
  /\ exists p,
       payments (fst (addPayment parseFloat numToString now P
                        (fillRemainingAmount numToString P st)))
         = (payments st ++ [p])%list
       /\ Payment.amount p = remainingBalance P st.
Proof.
  intros Hpos Hm Hc Hrt. unfold JS.gt in Hpos.
  split.
  { cbn [step]. unfold JS.strictEq. now rewrite (ltb_not_eqb _ _ Hpos). }
  set (st1 := fillRemainingAmount numToString P st).
  assert (Ha : paymentAmount st1 = numToString (remainingBalance P st)).
  { unfold paymentAmount, st1. cbn. now destruct (activeMethod st). }
  destruct (checked_amount_is_added now P st1) as (p & Hp & Hamt & _).
  - rewrite Ha, Hrt. unfold validNumber, JS.le.
    destruct (ltb_not_NaN _ _ Hpos) as [_ ->]. cbn.
    destruct (remainingBalance P st <=? 0)%float eqn:E; [|reflexivity].
    now rewrite (leb_not_gt _ _ E) in Hpos.
  - intros Hw. now cbn in Hw.
  - rewrite Ha, Hrt. apply ltb_irrefl.
  - exact Hc.
  - exists p. rewrite Ha, Hrt in Hamt. now split.
Qed.

(** X13: on the wallet tab, while something remains and the wallet is not
    empty, "Use Full Balance" fills in the smaller of the wallet total and
    the remaining balance, and [addPayment] accepts it. *)
Theorem full_wallet_fill_is_accepted (now : JS.number) (P : Props) (st : State) :
  let v := JS.Math_min (total (walletBalance P)) (remainingBalance P st) in
  activeMethod st = wallet ->
  JS.gt (total (walletBalance P)) 0%float = true ->
  JS.gt (remainingBalance P st) 0%float = true ->
  parseFloat (numToString v) = v ->
  step parseFloat numToString P ClickFullWallet st
    = (useFullWalletBalance numToString P st, [])
  /\ exists p,
       payments (fst (addPayment parseFloat numToString now P
                        (useFullWalletBalance numToString P st)))
         = (payments st ++ [p])%list
       /\ Payment.amount p = v.
Proof.
  intros v Hm Ht Hr Hrt. unfold JS.gt in Ht, Hr.
  destruct (Math_min_positive _ _ Ht Hr) as (Hv & _ & Hvt & Hvr). fold v in Hv, Hvt, Hvr.
  split.
  { cbn [step]. unfold quickFillDisabled, JS.strictEq.
    now rewrite (ltb_not_eqb _ _ Ht), (ltb_not_eqb _ _ Hr). }
  set (st1 := useFullWalletBalance numToString P st).
  assert (Ha : paymentAmount st1 = numToString v).
  { unfold paymentAmount, st1. cbn. now rewrite Hm. }
  destruct (checked_amount_is_added now P st1) as (p & Hp & Hamt & _).
  - now rewrite Ha, Hrt.
  - intros _. now rewrite Ha, Hrt.
  - now rewrite Ha, Hrt.
  - cbn. rewrite Hm. discriminate.
  - exists p. rewrite Ha, Hrt in Hamt. now split.
Qed.

End QuickFill.

(** A positive number that a finite number is not below is finite. *)
Lemma finite_below (v b : float) :
  (0 <? v)%float = true -> JS.gt v b = false -> is_finite b = true ->
  is_finite v = true.
Proof.
  unfold JS.gt, is_finite, is_infinity.
  change (is_nan v) with (JS.isNaN v). change (is_nan b) with (JS.isNaN b).
  rewrite !isNaN_spec, !FloatAxioms.eqb_spec, !FloatAxioms.abs_spec, !FloatAxioms.ltb_spec.
  replace (Prim2SF 0%float) with (S754_zero false) by reflexivity.
  replace (Prim2SF infinity) with (S754_infinity false) by reflexivity.
  destruct (Prim2SF v) as [sv|sv| |sv mv ev]; try destruct sv;
    destruct (Prim2SF b) as [sb|sb| |sb mb eb]; try destruct sb;
    cbn; congruence.
Qed.

Lemma Math_max_zero_positive (d : JS.number) :
  (0 <? JS.Math_max 0 d)%float = (0 <? d)%float.
Proof.
  rewrite Math_max_zero.
  destruct (JS.isNaN d) eqn:Hn.
  - destruct (0 <? d)%float eqn:Hd; [|reflexivity].
    destruct (ltb_not_NaN _ _ Hd) as [_ Hn']. congruence.
  - now destruct (0 <? d)%float eqn:Hd.
Qed.

Section WalletAndChange.

Variable parseFloat : string -> JS.number.
Variable numToString : JS.number -> string.

(** X14: on the wallet tab, "Use Points Only" fills in the smaller of the
    reward points and the remaining balance; when the points are within
    the wallet total, [addPayment] accepts it and takes all of it from the
    points: the refund portion is zero and the entry reads "N pts used". *)
Theorem only_points_fill_uses_points (now : JS.number) (P : Props) (st : State) :
  let pts := rewardPoints (walletBalance P) in
  let v := JS.Math_min pts (remainingBalance P st) in
  activeMethod st = wallet ->
  JS.gt pts 0%float = true ->
  JS.gt (remainingBalance P st) 0%float = true ->
  is_finite pts = true ->
  JS.isNaN (total (walletBalance P)) = false ->
  JS.gt pts (total (walletBalance P)) = false ->
  parseFloat (numToString v) = v ->
  exists p,
    payments (fst (addPayment parseFloat numToString now P
                     (useOnlyPoints numToString P st)))
      = (payments st ++ [p])%list
    /\ Payment.amount p = v
    /\ pointsUsed P v = v
    /\ refundUsed P v = 0%float
    /\ Payment.details p = numToString v ++ " pts used".
Proof.
  intros pts v Hm Hp Hr Hfin Hnt Hpt Hrt. unfold JS.gt in Hp, Hr.
  destruct (Math_min_positive _ _ Hp Hr) as (Hv & Hpos & Hvp & Hvr).
  fold v in Hv, Hpos, Hvp, Hvr.
  destruct (ltb_not_NaN _ _ Hpos) as [_ Nv]. destruct (ltb_not_NaN _ _ Hp) as [_ Np].
  assert (Hvt : JS.gt v (total (walletBalance P)) = false)
    by (apply (not_gt_trans v pts); assumption).
  assert (Hpu : pointsUsed P v = v).
  { unfold pointsUsed. fold pts.
    destruct (Math_min_le v pts (not_gt_leb _ _ Nv Np Hvp)) as [E|(E & _)]; [exact E|].
    rewrite E in Hpos. discriminate. }
  assert (Hru : refundUsed P v = 0%float).
  { unfold refundUsed. rewrite Hpu. apply sub_diag.
    now apply (finite_below v pts). }
  set (st1 := useOnlyPoints numToString P st).
  assert (Ha : paymentAmount st1 = numToString v).
  { unfold paymentAmount, st1. cbn. now rewrite Hm. }
  destruct (checked_amount_is_added parseFloat numToString now P st1)
    as (p & Hadd & Hamt & _ & Hd).
  - now rewrite Ha, Hrt.
  - intros _. now rewrite Ha, Hrt.
  - now rewrite Ha, Hrt.
  - cbn. rewrite Hm. discriminate.
  - exists p. rewrite Ha, Hrt in Hamt, Hd.
    repeat split; auto.
    unfold paymentDetails in Hd. cbn in Hd. rewrite Hm in Hd.
    injection Hd as <-. unfold walletDetails.
    rewrite Hpu, Hru. unfold JS.gt. now rewrite Hpos.
Qed.

(** X15: while the wallet holds reward points, every wallet entry takes
    some of its amount from the points, whatever was typed or filled in
    (also by "Use Refund Only"): its description is "N pts + ₹M refund
    used" or "N pts used", never the refund alone. *)
Theorem wallet_entry_takes_points_first
  (now : JS.number) (P : Props) (st : State) (p : Payment.t) :
  JS.gt (rewardPoints (walletBalance P)) 0%float = true ->
  activeMethod st = wallet ->
  payments (fst (addPayment parseFloat numToString now P st))
    = (payments st ++ [p])%list ->
  let points := pointsUsed P (Payment.amount p) in
  let refund := refundUsed P (Payment.amount p) in
  (0 <? points)%float = true
  /\ Payment.details p
     = if JS.gt refund 0%float
       then numToString points ++ " pts + ₹" ++ numToString refund ++ " refund used"
       else numToString points ++ " pts used".
Proof.
  intros Hpts Hm H.
  destruct (admitted_inv parseFloat numToString now P st p H)
    as (details & Hv & _ & _ & Hd & -> & _).
  cbn [Payment.amount Payment.details newPayment]. cbv zeta.
  destruct (validNumber_positive _ Hv) as [_ Hpos].
  destruct (Math_min_positive _ _ Hpos Hpts) as (_ & Hpu & _).
  fold (pointsUsed P (parseFloat (paymentAmount st))) in Hpu.
  split; [exact Hpu|].
  unfold paymentDetails in Hd. rewrite Hm in Hd. injection Hd as <-.
  unfold walletDetails, JS.gt. rewrite Hpu. cbn [andb].
  now destruct (0 <? refundUsed P (parseFloat (paymentAmount st)))%float.
Qed.

(** X16: the "Change to return" shown for the amount typed is positive
    exactly when the amount is above the remaining balance, that is, for a
    cash amount that is a positive number, exactly when [addPayment]
    refuses it with "Amount Exceeds Balance"; for an amount that is not
    above the remaining balance the change is zero (or NaN when the
    difference is). *)
Theorem change_shown_iff_amount_exceeds (now : JS.number) (P : Props) (st : State) :
  let typed := parseFloat (if JS.truthy (amount st) then amount st else "0") in
  let change := changeToReturn parseFloat P st in
  (0 <? change)%float = JS.gt typed (remainingBalance P st)
  /\ (JS.gt typed (remainingBalance P st) = false ->
      JS.isNaN (typed - remainingBalance P st)%float = false -> change = 0%float)
  /\ (activeMethod st = cash -> JS.truthy (amount st) = true ->
      validNumber typed = true ->
      ((0 <? change)%float = true
       <-> reportedError (snd (addPayment parseFloat numToString now P st))
           = Some ExceedsRemainingBalance)).
Proof.
  intros typed change.
  assert (E : (0 <? change)%float = JS.gt typed (remainingBalance P st)).
  { unfold change, changeToReturn. fold typed.
    rewrite Math_max_zero_positive. apply sub_positive_iff. }
  split; [exact E|]. split.
  - intros Hg Hn. unfold change, changeToReturn. fold typed.
    rewrite Math_max_zero, Hn, sub_positive_iff.
    unfold JS.gt in Hg. now rewrite Hg.
  - intros Hm Ht Hv. rewrite E. subst typed. rewrite Ht in Hv |- *.
    assert (Ha : paymentAmount st = amount st)
      by (unfold paymentAmount; now rewrite Hm).
    rewrite <- Ha in Hv |- *.
    destruct (addPayment_inv parseFloat numToString now P st)
      as [[Hv' _]|[(_ & Hm' & _)|[(_ & _ & Hr & E')|[(_ & _ & _ & Hm' & _)|
          (details & _ & _ & Hr & _ & E')]]]]; try congruence.
    + rewrite E', Hr. cbn. split; reflexivity.
    + rewrite E', Hr. cbn. split; discriminate.
Qed.

(** X10: the wallet validator is the general validator with one more
    test: what it accepts the general validator accepts, the two agree on
    every amount that is not above the wallet total, and an amount above
    the wallet total that the general validator accepts is refused as
    "Insufficient Wallet Balance". *)
Theorem wallet_validator_adds_one_test (P : Props) (st : State) (amt : string) :
  let n := parseFloat amt in
  let general := validateAmount parseFloat numToString P st amt in
  let forWallet := validateWalletAmount parseFloat numToString P st amt in
  (fst forWallet = true -> fst general = true)
  /\ (JS.gt n (total (walletBalance P)) = false -> forWallet = general)
  /\ (JS.gt n (total (walletBalance P)) = true -> fst general = true ->
      forWallet = (false, [toast (insufficientWalletToast numToString P)])).
Proof.
  cbv zeta. unfold validateAmount, validateWalletAmount.
  destruct (JS.isNaN (parseFloat amt) || JS.le (parseFloat amt) 0%float);
    [repeat split; intros; try reflexivity; discriminate|].
  destruct (JS.gt (parseFloat amt) (total (walletBalance P)));
    [|repeat split; intros; try reflexivity; try assumption; discriminate].
  repeat split; intros; try reflexivity; discriminate.
Qed.

End WalletAndChange.

(** ** Delivery options *)

Lemma includes_spec (o : string) (l : list string) :
  existsb (String.eqb o) l = true <-> In o l.
Proof.
  rewrite existsb_exists. split.
  - intros (x & Hx & E). apply String.eqb_eq in E. now subst.
  - intros H. exists o. split; [exact H|apply String.eqb_refl].
Qed.

(** X17: [toggleDeliveryOption] flips the option it is given and no other:
    the option is selected afterwards exactly when it was not before, every
    other option keeps its status, no option comes to be listed twice, and
    the entries are not touched. *)
Theorem toggle_flips_one_option (o : string) (st : State) :
  let st' := toggleDeliveryOption o st in
  (In o (selectedDeliveryOptions st') <-> ~ In o (selectedDeliveryOptions st))
  /\ (forall o', o' <> o ->
      (In o' (selectedDeliveryOptions st') <-> In o' (selectedDeliveryOptions st)))
  /\ (NoDup (selectedDeliveryOptions st) -> NoDup (selectedDeliveryOptions st'))
  /\ payments st' = payments st.
Proof.
  cbv zeta. cbn [toggleDeliveryOption setSelectedDeliveryOptions
                 selectedDeliveryOptions payments].
  set (l := selectedDeliveryOptions st).
  destruct (existsb (String.eqb o) l) eqn:Hin.
  - apply includes_spec in Hin.
    split; [|split; [|split; [|reflexivity]]].
    + split; [intros H _|intros H; contradiction].
      apply filter_In in H. destruct H as [_ H].
      now rewrite String.eqb_refl in H.
    + intros o' Hne. rewrite filter_In. split; [now intros [H _]|].
      intros H. split; [exact H|].
      now destruct (String.eqb_spec o' o).
    + apply NoDup_filter.
  - assert (Hn : ~ In o l).
    { intros H. apply includes_spec in H. congruence. }
    split; [|split; [|split; [|reflexivity]]].
    + split; [now intros _|]. intros _. apply in_or_app. right. now left.
    + intros o' Hne. rewrite in_app_iff. cbn. intuition congruence.
    + intros Hnd. apply NoDup_app; [exact Hnd|repeat constructor; intros []|].
      intros x Hx [<-|[]]. contradiction.
Qed.

Lemma windows_app (fx gx : list Effect) :
  windows (fx ++ gx) = (windows fx ++ windows gx)%list.
Proof.
  induction fx as [|e fx IH]; cbn; [reflexivity|].
  destruct e; cbn; now rewrite IH.
Qed.

Lemma handOvers_app (fx gx : list Effect) :
  handOvers (fx ++ gx) = (handOvers fx ++ handOvers gx)%list.
Proof.
  induction fx as [|e fx IH]; cbn; [reflexivity|].
  destruct e; cbn; now rewrite IH.
Qed.

Lemma deliver_effects (st : State) (o : string) :
  handOvers (deliver st o) = []
  /\ windows (deliver st o) = if knownOption o then [(o, payments st)] else [].
Proof.
  unfold deliver, knownOption.
  destruct (String.eqb_spec o "print") as [->|_]; [now split|].
  destruct (String.eqb_spec o "whatsapp") as [->|_]; [now split|].
  destruct (String.eqb_spec o "sms") as [->|_]; now split.
Qed.

Lemma deliveries_effects (st : State) (l : list string) :
  handOvers (flat_map (deliver st) l) = []
  /\ map fst (windows (flat_map (deliver st) l)) = filter knownOption l
  /\ Forall (fun w => snd w = payments st) (windows (flat_map (deliver st) l)).
Proof.
  induction l as [|o l (IH1 & IH2 & IH3)]; cbn; [repeat split; constructor|].
  destruct (deliver_effects st o) as [H1 H2].
  rewrite handOvers_app, windows_app, H1, H2, IH1, map_app, IH2.
  repeat split.
  - now destruct (knownOption o).
  - apply Forall_app. split; [|exact IH3].
    destruct (knownOption o); repeat constructor.
Qed.

Section Delivery.

Variable parseFloat : string -> JS.number.
Variable numToString : JS.number -> string.

Lemma step_options (P : Props) (a : Action) (st : State) :
  let st' := fst (step parseFloat numToString P a st) in
  selectedDeliveryOptions st' = selectedDeliveryOptions st
  \/ exists o, st' = toggleDeliveryOption o st.
Proof.
  cbv zeta. destruct a; cbn [step]; try (left; reflexivity).
  - left. now destruct (quickFillDisabled P st (total (walletBalance P))).
  - left. now destruct (quickFillDisabled P st (rewardPoints (walletBalance P))).
  - left. now destruct (quickFillDisabled P st (refundBalance (walletBalance P))).
  - left. now destruct (JS.strictEq (remainingBalance P st) 0%float).
  - right. now exists option.
  - left. destruct (addDisabled P st); [reflexivity|].
    destruct (addPayment_inv parseFloat numToString now P st)
      as [[_ E]|[(_ & _ & _ & E)|[(_ & _ & _ & E)|[(_ & _ & _ & _ & _ & E)|
          (details & _ & _ & _ & _ & E)]]]];
      now rewrite E.
  - left. unfold confirmPayment.
    destruct (confirmDisabled P st); [reflexivity|].
    now destruct (JS.gt (remainingBalance P st) 0%float).
Qed.

Lemma options_distinct (P : Props) (st : State) :
  reachable parseFloat numToString P st -> NoDup (selectedDeliveryOptions st).
Proof.
  revert st.
  apply (reachable_invariant parseFloat numToString P
           (fun st => NoDup (selectedDeliveryOptions st))); [constructor|].
  intros a s Hs.
  destruct (step_options P a s) as [E|(o & E)]; rewrite E; [exact Hs|].
  destruct (existsb (String.eqb o) (selectedDeliveryOptions s)) eqn:Hin; cbn; rewrite Hin.
  - apply NoDup_filter. exact Hs.
  - assert (Hn : ~ In o (selectedDeliveryOptions s)) by (intros H; apply includes_spec in H; congruence).
    apply NoDup_app; [exact Hs|repeat constructor; intros []|].
    intros x Hx [<-|[]]. contradiction.
Qed.

End Delivery.

Section Confirming.

Variable parseFloat : string -> JS.number.
Variable numToString : JS.number -> string.

Lemma confirmPayment_effects (P : Props) (st : State) :
  let fx := snd (confirmPayment numToString P st) in
  (JS.gt (remainingBalance P st) 0%float = true ->
   handOvers fx = [] /\ windows fx = [])
  /\ (JS.gt (remainingBalance P st) 0%float = false ->
      handOvers fx = [payments st]
      /\ map fst (windows fx) = filter knownOption (selectedDeliveryOptions st)
      /\ Forall (fun w => snd w = payments st) (windows fx)).
Proof.
  cbv zeta. unfold confirmPayment.
  destruct (deliveries_effects st (selectedDeliveryOptions st)) as (H1 & H2 & H3).
  destruct (JS.gt (remainingBalance P st) 0%float); cbn [snd].
  - split; [intros _; now split|discriminate].
  - split; [discriminate|intros _].
    cbn [handOvers windows]. rewrite handOvers_app, windows_app, H1. cbn.
    rewrite app_nil_r. now repeat split.
Qed.

(** X18: [confirmPayment] opens no window and hands nothing over while
    something remains.  Otherwise it hands the entries over once, and, in
    every state of a session, opens one window for each selected delivery
    option (print, whatsapp, sms), in the order of selection, each showing
    those same entries and no channel twice. *)
Theorem confirm_delivers_once_per_option (P : Props) (st : State) :
  reachable parseFloat numToString P st ->
  let fx := snd (confirmPayment numToString P st) in
  (JS.gt (remainingBalance P st) 0%float = true ->
   handOvers fx = [] /\ windows fx = [])
  /\ (JS.gt (remainingBalance P st) 0%float = false ->
      handOvers fx = [payments st]
      /\ map fst (windows fx) = filter knownOption (selectedDeliveryOptions st)
      /\ Forall (fun w => snd w = payments st) (windows fx)
      /\ NoDup (map fst (windows fx))).
Proof.
  intros Hr. cbv zeta.
  destruct (confirmPayment_effects P st) as [Hpos Hzero].
  split; [exact Hpos|]. intros Hg.
  destruct (Hzero Hg) as (H1 & H2 & H3).
  repeat split; auto.
  rewrite H2. apply NoDup_filter.
  now apply (options_distinct parseFloat numToString P).
Qed.

(** Only a confirmation hands entries over, and it leaves the state of the
    dialog as it is. *)
Lemma step_handOvers (P : Props) (a : Action) (st : State) :
  handOvers (snd (step parseFloat numToString P a st)) = []
  \/ (handOvers (snd (step parseFloat numToString P a st)) = [payments st]
      /\ fst (step parseFloat numToString P a st) = st
      /\ JS.gt (remainingBalance P st) 0%float = false).
Proof.
  destruct a; cbn [step]; try (left; reflexivity).
  - left. now destruct (quickFillDisabled P st (total (walletBalance P))).
  - left. now destruct (quickFillDisabled P st (rewardPoints (walletBalance P))).
  - left. now destruct (quickFillDisabled P st (refundBalance (walletBalance P))).
  - left. now destruct (JS.strictEq (remainingBalance P st) 0%float).
  - left. destruct (addDisabled P st); [reflexivity|].
    destruct (addPayment_inv parseFloat numToString now P st)
      as [[_ E]|[(_ & _ & _ & E)|[(_ & _ & _ & E)|[(_ & _ & _ & _ & _ & E)|
          (details & _ & _ & _ & _ & E)]]]];
      now rewrite E.
  - unfold confirmDisabled.
    destruct (confirmPayment_effects P st) as [Hpos Hzero].
    destruct (JS.gt (remainingBalance P st) 0%float) eqn:Hg; [left; reflexivity|].
    right. destruct (Hzero eq_refl) as (H1 & _).
    repeat split; [exact H1|].
    unfold confirmPayment. now rewrite Hg.
Qed.

Lemma notify_handOvers (fx : list Effect) (pg : Page) :
  notify fx pg
  = fold_left (fun pg ps => handlePaymentComplete ps pg) (handOvers fx) pg.
Proof.
  revert pg. induction fx as [|e fx IH]; intros pg; cbn; [reflexivity|].
  destruct e; cbn; apply IH.
Qed.

Lemma pageStep_ok (a : PageAction) (pg : Page) :
  pageOk pg -> pageOk (fst (pageStep parseFloat numToString a pg)).
Proof.
  intros (HT & Hinv). destruct a as [| |n|a]; cbn [pageStep].
  - destruct (completedPayments pg) eqn:Hc; cbn [fst].
    + split; [exact HT|]. left. exact Hc.
    + split; [exact HT|]. now rewrite <- Hc in *.
  - cbn [fst]. split; [exact HT|].
    destruct Hinv as [Hc|(Ho & Hc & Hg)]; [left; exact Hc|right].
    now repeat split.
  - destruct (completedPayments pg) eqn:Hc; cbn [fst].
    + split; [exact HT|]. left. exact Hc.
    + split; [exact HT|]. left. reflexivity.
  - destruct (isPaymentModalOpen pg) eqn:Ho; cbn [fst].
    2:{ split; [exact HT|]. rewrite Ho. exact Hinv. }
    assert (Hc : completedPayments pg = []).
    { destruct Hinv as [Hc|(Ho' & _)]; [exact Hc|congruence]. }
    pose proof (step_handOvers (modalProps pg) a (modal pg)) as Hh.
    destruct (step parseFloat numToString (modalProps pg) a (modal pg))
      as [st fx] eqn:Hs.
    cbn [fst snd] in *. rewrite notify_handOvers.
    destruct Hh as [->|(-> & -> & Hg)]; cbn [fold_left].
    + split; [exact HT|]. left. exact Hc.
    + split; [exact HT|]. right. now repeat split.
Qed.

Lemma pageRun_ok (acts : list PageAction) (pg : Page) :
  pageOk pg -> pageOk (fst (pageRun parseFloat numToString acts pg)).
Proof.
  revert pg. induction acts as [|a rest IH]; intros pg Hpg; cbn; [exact Hpg|].
  pose proof (pageStep_ok a pg Hpg) as H1.
  destruct (pageStep parseFloat numToString a pg) as [pg1 fx1]. cbn in H1.
  specialize (IH pg1 H1).
  now destruct (pageRun parseFloat numToString rest pg1) as [pg2 fx2].
Qed.

Lemma pageReachable_ok (pg : Page) :
  pageReachable parseFloat numToString pg -> pageOk pg.
Proof.
  intros [acts <-]. apply pageRun_ok. split; [reflexivity|left; reflexivity].
Qed.

(** X19: on the host page the bill is 2395 throughout, and whenever
    payments are recorded the dialog is closed, the recorded payments are
    the entries of the dialog in their order, and nothing of the bill
    remains. *)
Theorem recorded_payments_settle_bill (pg : Page) :
  pageReachable parseFloat numToString pg ->
  totalAmount (modalProps pg) = 2395%float
  /\ (completedPayments pg <> [] ->
      isPaymentModalOpen pg = false
      /\ completedPayments pg = payments (modal pg)
      /\ JS.gt (remainingBalance (modalProps pg) (modal pg)) 0%float = false).
Proof.
  intros Hr. destruct (pageReachable_ok pg Hr) as (HT & [Hc|H]).
  - split; [exact HT|]. congruence.
  - split; [exact HT|]. intros _. exact H.
Qed.

(** X20: "New Transaction" gives the invoice a new number but does not
    clear the dialog: once payments are recorded, starting a new
    transaction, opening the dialog and confirming hands the entries of the
    previous transaction over again, and they are recorded for the new
    invoice. *)
Theorem new_transaction_keeps_entries (pg : Page) (n : JS.number) :
  pageReachable parseFloat numToString pg ->
  completedPayments pg <> [] ->
  let session := [ClickNewTransaction n; ClickProcessPayment; InModal ClickConfirm] in
  let result := pageRun parseFloat numToString session pg in
  handOvers (snd result) = [completedPayments pg]
  /\ completedPayments (fst result) = completedPayments pg
  /\ invoiceId (currentInvoice (fst result)) = "INV-2024-" ++ padStart3 (numToString n)
  /\ isPaymentModalOpen (fst result) = false.
Proof.
  intros Hr Hne.
  destruct (pageReachable_ok pg Hr) as (HT & [Hc|(Ho & Hc & Hg)]); [congruence|].
  cbv zeta. cbn [pageRun pageStep].
  destruct (completedPayments pg) as [|c cs] eqn:Hcs; [congruence|].
  cbn [handleNewTransaction completedPayments isPaymentModalOpen
       setIsPaymentModalOpen modal fst snd].
  change (modalProps _) with (modalProps pg).
  cbn [step]. unfold confirmDisabled. rewrite Hg.
  destruct (confirmPayment_effects (modalProps pg) (modal pg)) as [_ Hzero].
  destruct (Hzero Hg) as (H1 & _).
  unfold confirmPayment in *. rewrite Hg in *. cbn [fst snd app] in *.
  rewrite notify_handOvers, H1. cbn. rewrite <- Hc, app_nil_r.
  cbn in H1. injection H1 as H1. rewrite H1.
  repeat split.
Qed.

End Confirming.

(** ** Digit fields *)

Lemma isDigit_removeNonDigits (s : string) :
  Forall (fun c => isDigit c = true) (list_ascii_of_string (removeNonDigits s)).
Proof.
  induction s as [|c s IH]; cbn; [constructor|].
  destruct (isDigit c) eqn:E; cbn; [constructor; assumption|assumption].
Qed.

Lemma removeNonDigits_digits (s : string) :
  Forall (fun c => isDigit c = true) (list_ascii_of_string s) ->
  removeNonDigits s = s.
Proof.
  induction s as [|c s IH]; cbn; [reflexivity|].
  intros H. inversion H as [|? ? Hc Hs]; subst. rewrite Hc. f_equal. now apply IH.
Qed.

(** X21: what is typed in the "Last 4 Digits" field is stored without its
    non-digits: the field holds digits only, in the order typed, is never
    longer than what was typed, and typing digits only stores them as they
    are; filtering again changes nothing. *)
Theorem last_four_keeps_digits_only (value : string) (st : State) :
  let st' := changeLastFour value st in
  Forall (fun c => isDigit c = true) (list_ascii_of_string (lastFour st'))
  /\ (String.length (lastFour st') <= String.length value)%nat
  /\ removeNonDigits (lastFour st') = lastFour st'
  /\ (Forall (fun c => isDigit c = true) (list_ascii_of_string value) ->
      lastFour st' = value)
  /\ payments st' = payments st.
Proof.
  cbv zeta. cbn [changeLastFour setLastFour lastFour payments].
  split; [apply isDigit_removeNonDigits|]. split.
  - induction value as [|c s IH]; cbn; [lia|]. destruct (isDigit c); cbn; lia.
  - split; [apply removeNonDigits_digits, isDigit_removeNonDigits|].
    split; [apply removeNonDigits_digits|reflexivity].
Qed.

(** X6: an entry that has just been added, with an id that no earlier
    entry bears, is removed again by [deletePayment] of its id: the entries,
    [totalPaid] and the remaining balance are those before the addition. *)
Theorem add_then_remove_restores
  (parseFloat : string -> JS.number) (numToString : JS.number -> string)
  (now : JS.number) (P : Props) (st : State) (p : Payment.t) :
  payments (fst (addPayment parseFloat numToString now P st))
    = (payments st ++ [p])%list ->
  (forall x, In x (payments st) -> Payment.id x <> numToString now) ->
  let st' := fst (deletePayment (numToString now)
                    (fst (addPayment parseFloat numToString now P st))) in
  payments st' = payments st
  /\ totalPaid st' = totalPaid st
  /\ remainingBalance P st' = remainingBalance P st.
Proof.
  intros H Hids.
  destruct (admitted_inv parseFloat numToString now P st p H)
    as (details & _ & _ & _ & _ & Hp & _).
  assert (Hid : Payment.id p = numToString now) by now subst p.
  assert (E : payments (fst (deletePayment (numToString now)
                               (fst (addPayment parseFloat numToString now P st))))
              = payments st).
  { apply (deletePayment_last _ _ (payments st) p); assumption. }
  cbv zeta. split; [exact E|].
  unfold remainingBalance, totalPaid. rewrite E. split; reflexivity.
Qed.

(** ** Instances of the further properties *)

Lemma add_clears_form_witness :
  let st := fst (exec 500%float redeem300) in
  let st' := fst (add 500%float 1700000000000%float st) in
  redeemAmount st = "300" /\ redeemAmount st' = ""
  /\ activeMethod st' = wallet
  /\ addDisabled (demoProps 500%float) st' = true.
Proof.
  cbv zeta.
  assert (H : payments (fst (add 500%float 1700000000000%float
                               (fst (exec 500%float redeem300))))
              = (payments (fst (exec 500%float redeem300)) ++ [redeemed])%list)
    by (vm_compute; reflexivity).
  destruct (add_clears_form Builtins.parseFloat Builtins.numToString
              1700000000000%float 1700000060000%float (demoProps 500%float)
              (fst (exec 500%float redeem300)) redeemed H)
    as (_ & Hr & _ & _ & _ & Hm & _ & Hd & _).
  split; [reflexivity|]. split; [exact Hr|]. split; [exact Hm|exact Hd].
Defined.

Lemma stored_method_data_witness :
  let st := fst (exec 500%float cardForm) in
  upiId st = "someone@upi"
  /\ payments (fst (add 500%float 1700000000000%float st)) = [cardEntry]
  /\ Payment.cardType cardEntry = Some (cardType st)
  /\ Payment.upiId cardEntry = None.
Proof.
  cbv zeta.
  assert (H : payments (fst (add 500%float 1700000000000%float
                               (fst (exec 500%float cardForm))))
              = (payments (fst (exec 500%float cardForm)) ++ [cardEntry])%list)
    by (vm_compute; reflexivity).
  destruct (stored_method_data Builtins.parseFloat Builtins.numToString
              1700000000000%float (demoProps 500%float)
              (fst (exec 500%float cardForm)) cardEntry H)
    as (_ & Hc & _ & Hu & _).
  split; [reflexivity|]. split; [exact H|]. split; [exact Hc|exact Hu].
Defined.

Lemma deletePayment_unknown_id_witness :
  let st := fst (exec 1%float threeParts) in
  fst (deletePayment "1600000000000" st) = st.
Proof.
  cbv zeta.
  refine (f_equal fst (deletePayment_unknown_id "1600000000000"
                         (fst (exec 1%float threeParts)) _)).
  intros x Hx. vm_compute in Hx.
  destruct Hx as [<-|[<-|[<-|[]]]]; vm_compute; discriminate.
Defined.

Lemma entries_have_positive_amounts_witness :
  let st := fst (exec 1%float threeParts) in
  nth 1 (map Payment.amount (payments st)) 0%float = 0.1%float
  /\ (0 <? Payment.amount (nth 1 (payments st) redeemed))%float = true.
Proof.
  cbv zeta. split; [vm_compute; reflexivity|].
  refine (proj2 (entries_have_positive_amounts
                   Builtins.parseFloat Builtins.numToString (demoProps 1%float)
                   (fst (exec 1%float threeParts))
                   (nth 1 (payments (fst (exec 1%float threeParts))) redeemed) _ _)).
  - exists threeParts. reflexivity.
  - vm_compute. right. left. reflexivity.
Defined.

Lemma entries_respect_method_limits_witness :
  let st := fst (add 500%float 1700000000000%float (fst (exec 500%float redeem300))) in
  payments st = [redeemed]
  /\ JS.gt (Payment.amount redeemed) (total demoWallet) = false.
Proof.
  cbv zeta. split; [vm_compute; reflexivity|].
  refine (proj1 (entries_respect_method_limits
                   Builtins.parseFloat Builtins.numToString (demoProps 500%float)
                   (fst (add 500%float 1700000000000%float
                           (fst (exec 500%float redeem300)))) redeemed _ _) _).
  - exists (redeem300 ++ [ClickAdd 1700000000000%float])%list. vm_compute. reflexivity.
  - vm_compute. left. reflexivity.
  - reflexivity.
Defined.

Lemma totalPaid_sign_witness :
  let st := fst (exec 1%float threeParts) in
  (0 <? totalPaid st)%float = true /\ JS.isNaN (totalPaid st) = false.
Proof.
  cbv zeta.
  destruct (totalPaid_sign Builtins.parseFloat Builtins.numToString
              (demoProps 1%float) (fst (exec 1%float threeParts)))
    as (_ & Hpos & Hn & _).
  - exists threeParts. reflexivity.
  - split; [|exact Hn]. apply Hpos. vm_compute. discriminate.
Defined.

Lemma quick_amount_is_accepted_witness :
  exists p,
    payments (fst (add 500%float 1700000000000%float
                     (clickQuickAmount Builtins.numToString 100%float initialState)))
      = [p]
    /\ Payment.amount p = 100%float.
Proof.
  refine (quick_amount_is_accepted Builtins.parseFloat Builtins.numToString
            1700000000000%float (demoProps 500%float) initialState 100%float
            _ _ _ _ _).
  - left. reflexivity.
  - vm_compute. reflexivity.
  - discriminate.
  - discriminate.
  - vm_compute. reflexivity.
Defined.

Lemma remaining_fill_is_accepted_witness :
  let P := demoProps 19.99%float in
  let st := fst (exec 19.99%float [TypeAmount "1.17"; ClickAdd 1700000000000%float]) in
  remainingBalance P st = 18.82%float
  /\ exists p,
       payments (fst (add 19.99%float 1700000060000%float
                        (fillRemainingAmount Builtins.numToString P st)))
         = (payments st ++ [p])%list
       /\ Payment.amount p = remainingBalance P st.
Proof.
  cbv zeta. split; [vm_compute; reflexivity|].
  refine (proj2 (remaining_fill_is_accepted Builtins.parseFloat Builtins.numToString
                   1700000060000%float (demoProps 19.99%float)
                   (fst (exec 19.99%float
                           [TypeAmount "1.17"; ClickAdd 1700000000000%float]))
                   _ _ _ _)).
  - vm_compute. reflexivity.
  - vm_compute. discriminate.
  - vm_compute. discriminate.
  - vm_compute. reflexivity.
Defined.

Lemma full_wallet_fill_is_accepted_witness :
  exists p,
    payments (fst (add 500%float 1700000000000%float
                     (useFullWalletBalance Builtins.numToString
                        (demoProps 500%float) walletTab)))
      = (payments walletTab ++ [p])%list
    /\ Payment.amount p
       = JS.Math_min (total demoWallet) (remainingBalance (demoProps 500%float) walletTab).
Proof.
  refine (proj2 (full_wallet_fill_is_accepted Builtins.parseFloat Builtins.numToString
                   1700000000000%float (demoProps 500%float) walletTab _ _ _ _));
    vm_compute; reflexivity.
Defined.

Lemma only_points_fill_uses_points_witness :
  exists p,
    payments (fst (add 500%float 1700000000000%float
                     (useOnlyPoints Builtins.numToString
                        (demoProps 500%float) walletTab)))
      = (payments walletTab ++ [p])%list
    /\ Payment.amount p = 150%float
    /\ Payment.details p = "150 pts used".
Proof.
  destruct (only_points_fill_uses_points Builtins.parseFloat Builtins.numToString
              1700000000000%float (demoProps 500%float) walletTab)
    as (p & Hadd & Hamt & _ & _ & Hd); try (vm_compute; reflexivity).
  exists p. split; [exact Hadd|]. split; [exact Hamt|exact Hd].
Defined.

Lemma wallet_entry_takes_points_first_witness :
  let st := useRefundBalance Builtins.numToString (demoProps 500%float) walletTab in
  redeemAmount st = "200"
  /\ payments (fst (add 500%float 1700000000000%float st)) = [refundFillEntry]
  /\ (0 <? pointsUsed (demoProps 500%float) (Payment.amount refundFillEntry))%float = true
  /\ Payment.details refundFillEntry = "150 pts + ₹50 refund used".
Proof.
  cbv zeta.
  assert (H : payments (fst (add 500%float 1700000000000%float
                               (useRefundBalance Builtins.numToString
                                  (demoProps 500%float) walletTab)))
              = (payments (useRefundBalance Builtins.numToString
                             (demoProps 500%float) walletTab)
                 ++ [refundFillEntry])%list)
    by (vm_compute; reflexivity).
  destruct (wallet_entry_takes_points_first Builtins.parseFloat Builtins.numToString
              1700000000000%float (demoProps 500%float)
              (useRefundBalance Builtins.numToString (demoProps 500%float) walletTab)
              refundFillEntry eq_refl eq_refl H)
    as (Hp & _).
  split; [vm_compute; reflexivity|]. split; [exact H|]. split; [exact Hp|reflexivity].
Defined.

Lemma confirm_delivers_once_per_option_witness :
  let P := demoProps 300%float in
  let st := fst (exec 300%float paidWithDelivery) in
  selectedDeliveryOptions st = ["sms"; "print"]
  /\ handOvers (snd (confirmPayment Builtins.numToString P st)) = [payments st]
  /\ map fst (windows (snd (confirmPayment Builtins.numToString P st)))
     = filter knownOption (selectedDeliveryOptions st).
Proof.
  cbv zeta. split; [vm_compute; reflexivity|].
  destruct (confirm_delivers_once_per_option Builtins.parseFloat Builtins.numToString
              (demoProps 300%float) (fst (exec 300%float paidWithDelivery)))
    as (_ & Hz).
  - exists paidWithDelivery. reflexivity.
  - destruct (Hz ltac:(vm_compute; reflexivity)) as (H1 & H2 & _).
    split; [exact H1|exact H2].
Defined.

Lemma recorded_payments_settle_bill_witness :
  let pg := fst (pageRun Builtins.parseFloat Builtins.numToString
                   paidAndConfirmed initialPage) in
  map Payment.amount (completedPayments pg) = [2395%float]
  /\ isPaymentModalOpen pg = false
  /\ completedPayments pg = payments (modal pg).
Proof.
  cbv zeta. split; [vm_compute; reflexivity|].
  destruct (recorded_payments_settle_bill Builtins.parseFloat Builtins.numToString
              (fst (pageRun Builtins.parseFloat Builtins.numToString
                      paidAndConfirmed initialPage)))
    as (_ & H).
  - exists paidAndConfirmed. reflexivity.
  - destruct (H ltac:(vm_compute; discriminate)) as (Ho & Hc & _).
    split; [exact Ho|exact Hc].
Defined.

Lemma new_transaction_keeps_entries_witness :
  let pg := fst (pageRun Builtins.parseFloat Builtins.numToString
                   paidAndConfirmed initialPage) in
  let result := pageRun Builtins.parseFloat Builtins.numToString
                  [ClickNewTransaction 7%float; ClickProcessPayment; InModal ClickConfirm]
                  pg in
  handOvers (snd result) = [completedPayments pg]
  /\ invoiceId (currentInvoice (fst result)) = "INV-2024-007".
Proof.
  cbv zeta.
  destruct (new_transaction_keeps_entries Builtins.parseFloat Builtins.numToString
              (fst (pageRun Builtins.parseFloat Builtins.numToString
                      paidAndConfirmed initialPage)) 7%float)
    as (H1 & _ & H3 & _).
  - exists paidAndConfirmed. reflexivity.
  - vm_compute. discriminate.
  - split; [exact H1|]. rewrite H3. vm_compute. reflexivity.
Defined.

Lemma add_then_remove_restores_witness :
  let P := demoProps 500%float in
  let st := fst (exec 500%float redeem300) in
  let st' := fst (deletePayment "1700000000000"
                    (fst (add 500%float 1700000000000%float st))) in
  payments (fst (add 500%float 1700000000000%float st)) = [redeemed]
  /\ payments st' = []
  /\ remainingBalance P st' = remainingBalance P st.
Proof.
  cbv zeta.
  assert (H : payments (fst (add 500%float 1700000000000%float
                               (fst (exec 500%float redeem300))))
              = (payments (fst (exec 500%float redeem300)) ++ [redeemed])%list)
    by (vm_compute; reflexivity).
  destruct (add_then_remove_restores Builtins.parseFloat Builtins.numToString
              1700000000000%float (demoProps 500%float)
              (fst (exec 500%float redeem300)) redeemed H)
    as (E1 & _ & E3).
  - intros x Hx. vm_compute in Hx. destruct Hx.
  - split; [exact H|]. split; [exact E1|exact E3].
Defined.
